(** * reminder-system-mcp: protocol layer, execution tracker and tool server

    A shallow embedding of
    - [src/agent-executor.ts]      (class [ExecutionTracker], the three
                                   tools, [executeAgentQuery]),
    - [src/mcp-protocol.ts]        (class [MCPClient], the tool wrapper),
    - [src/mcp-server-protocol.ts] (class [MCPServerProtocol]),
    - [src/mcp_server.ts]          (the reminder and agent endpoints),
    followed by the properties of these.

    Conventions.  A JavaScript [number] is a [Z] (or a [nat] for the step
    counter, which only counts up from 0): every number on the modelled
    paths is an integer (ids, error codes, HTTP statuses, milliseconds).
    [Date.now()], [new Date().toISOString()], [fetch], [axios] and
    [JSON.stringify] are the environment: the value they yield is an
    argument of the operation that reads it.  An [async] function that
    throws is a function that returns [Throw].  A handler that throws
    before it replies yields no reply.  A template literal in front of a
    check or of a [try] is part of the handler: a value that has no text
    makes the handler throw there. *)

From Stdlib Require Import Ascii.
From stdpp Require Import base option list gmap strings pretty.

Open Scope string_scope.
Open Scope list_scope.
Local Set Warnings "-register-all".

(** ** JSON data, as [JSON.parse] yields it *)

Inductive Json :=
  | JNull
  | JBool (b : bool)
  | JNum (n : Z)
  | JStr (s : string)
  | JArr (items : list Json)
  | JObj (fields : list (string * Json)).

(** A value of type [any] that may also be [undefined]. *)
Abbreviation any := (option Json).
Abbreviation undefined := (@None Json).

(** Own property [k] of an object literal; on a repeated key the last
    binding wins, as in [JSON.parse]. *)
Fixpoint obj_get (k : string) (fs : list (string * Json)) : any :=
  match fs with
  | [] => undefined
  | (k', v) :: fs' =>
      match obj_get k fs' with
      | Some w => Some w
      | None => if decide (k = k') then Some v else undefined
      end
  end.

(** [j.k] for a data property [k]: [undefined] unless [j] is an object that
    has it. *)
Definition prop (k : string) (j : Json) : any :=
  match j with
  | JObj fs => obj_get k fs
  | _ => undefined
  end.

(** [`${s}`] for a string [s] is [s]; this is the conversion on the
    values that are strings by declaration (the query of
    [executeAgentQuery]).  On other values it gives the text of the
    conversion where that completes and the numbers in it are written in
    plain digits; [template_text] below is the conversion on any value. *)
Fixpoint ToString (j : Json) : string :=
  match j with
  | JNull => "null"
  | JBool true => "true"
  | JBool false => "false"
  | JNum n => pretty n
  | JStr s => s
  | JArr items =>
      String.concat ","
        (map (fun x => match x with
                       | JNull => EmptyString
                       | _ => ToString x
                       end) items)
  | JObj _ => "[object Object]"
  end.

(** [`${j}`] on any parsed value: the text, or [None] when the conversion
    throws its [TypeError].  An object is converted by its [toString]: the
    inherited one gives "[object Object]"; an own entry of that name is
    data, never a function, and so is an own or inherited [valueOf] of no
    use, and the conversion throws.  An array joins the texts of its
    elements, the empty text for [null].  A number reads as [num] prints
    it. *)
Fixpoint template_text (num : Z → string) (j : Json) : option string :=
  match j with
  | JNull => Some "null"
  | JBool true => Some "true"
  | JBool false => Some "false"
  | JNum n => Some (num n)
  | JStr s => Some s
  | JArr items =>
      String.concat "," <$>
        foldr (fun x rest =>
                 match match x with
                       | JNull => Some EmptyString
                       | _ => template_text num x
                       end, rest with
                 | Some text, Some texts => Some (text :: texts)
                 | _, _ => None
                 end) (Some []) items
  | JObj fs =>
      match obj_get "toString" fs with
      | Some _ => None
      | None => Some "[object Object]"
      end
  end.

(** [`${v}`] *)
Definition template (num : Z → string) (v : any) : option string :=
  match v with
  | Some j => template_text num j
  | None => Some "undefined"
  end.

(** [!!v]: whether [if (v)] takes [v] for true. *)
Definition ToBoolean (v : any) : bool :=
  match v with
  | None => false
  | Some JNull => false
  | Some (JBool b) => b
  | Some (JNum n) => negb (n =? 0)%Z
  | Some (JStr s) => negb (bool_decide (s = EmptyString))
  | Some (JArr _) => true
  | Some (JObj _) => true
  end.

(** A number in a template reads as [JSON.stringify] prints it: the two
    apply the same conversion of the runtime to a number. *)
Definition Number_toString (JSON_stringify : Json → string) (n : Z) : string :=
  JSON_stringify (JNum n).

(** The message of the [TypeError] of the runtime on an object that has no
    text. *)
Definition TypeError_convert : string :=
  "Cannot convert object to primitive value".

(** What a [throw] or a rejected promise carries.  The code only ever asks
    [instanceof Error] and reads [.message]. *)
Inductive thrown :=
  | ErrorObj (message : string)   (* an [Error] (or subclass) instance *)
  | NonError.                     (* any other thrown value *)

(** ** ExecutionTracker ([src/agent-executor.ts]) *)

Module Tracker.

Inductive step_type :=
  | start | tool_call | tool_response | llm_response | end_ | error.

Record ExecutionStep := {
  id : string;
  type : step_type;
  timestamp : string;
  content : string;
  actor : string;
  target : string;
  duration : option Z;
  metadata : any
}.

Record ExecutionTracker := {
  steps : list ExecutionStep;
  stepCounter : nat
}.

(** [new ExecutionTracker()] *)
Definition new : ExecutionTracker := {| steps := []; stepCounter := 0 |}.

(** [`step-${n}`] *)
Definition step_id (n : nat) : string := "step-" +:+ pretty n.

(** The arguments of one [addStep] call, with the clock reading
    [new Date().toISOString()] taken during it. *)
Record addStep_args := {
  a_type : step_type;
  a_content : string;
  a_actor : string;
  a_target : string;
  a_metadata : any;
  a_now : string
}.

Definition mk_step (n : nat) (a : addStep_args) : ExecutionStep :=
  {| id := step_id n;
     type := a_type a;
     timestamp := a_now a;
     content := a_content a;
     actor := a_actor a;
     target := a_target a;
     duration := None;
     metadata := a_metadata a |}.

(** [addStep]: pre-increments the counter, pushes the step, returns its id. *)
Definition addStep (a : addStep_args) (t : ExecutionTracker)
  : ExecutionTracker * string :=
  let n := S (stepCounter t) in
  ({| steps := steps t ++ [mk_step n a]; stepCounter := n |}, step_id n).

Definition set_duration (d : Z) (s : ExecutionStep) : ExecutionStep :=
  {| id := id s;
     type := type s;
     timestamp := timestamp s;
     content := content s;
     actor := actor s;
     target := target s;
     duration := Some d;
     metadata := metadata s |}.

(** [updateStepDuration]: [find] yields the first step with that id; the
    assignment mutates that element of the array in place. *)
Definition updateStepDuration (i : string) (d : Z) (t : ExecutionTracker)
  : ExecutionTracker :=
  match list_find (fun s => id s = i) (steps t) with
  | Some (k, s) =>
      {| steps := <[k := set_duration d s]> (steps t);
         stepCounter := stepCounter t |}
  | None => t
  end.

(** [getSteps]: a new array with the same elements. *)
Definition getSteps (t : ExecutionTracker) : list ExecutionStep := steps t.

Definition clear (t : ExecutionTracker) : ExecutionTracker :=
  {| steps := []; stepCounter := 0 |}.

(** A run of [addStep] calls, issued one after the other. *)
Fixpoint addSteps (calls : list addStep_args) (t : ExecutionTracker)
  : ExecutionTracker * list string :=
  match calls with
  | [] => (t, [])
  | a :: calls' =>
      let '(t1, i) := addStep a t in
      let '(t2, ids) := addSteps calls' t1 in
      (t2, i :: ids)
  end.

(** Any use of a tracker: the three mutators, in any order. *)
Inductive op :=
  | OpAddStep (a : addStep_args)
  | OpUpdateStepDuration (i : string) (d : Z)
  | OpClear.

Definition apply_op (t : ExecutionTracker) (o : op) : ExecutionTracker :=
  match o with
  | OpAddStep a => (addStep a t).1
  | OpUpdateStepDuration i d => updateStepDuration i d t
  | OpClear => clear t
  end.

Definition apply_ops (os : list op) (t : ExecutionTracker) : ExecutionTracker :=
  foldl apply_op t os.

End Tracker.

(** ** ExecutionTracker with its objects in a store

    The same class with the step objects kept apart from the arrays that
    refer to them, to tell what a caller who holds the array returned by
    [getSteps] sees afterwards. *)

Module TrackerStore.

(** The step objects ever created, by address, the array [this.steps] of
    addresses, and the counter. *)
Record ExecutionTracker := {
  objects : list Tracker.ExecutionStep;
  steps : list nat;
  stepCounter : nat
}.

Definition new : ExecutionTracker :=
  {| objects := []; steps := []; stepCounter := 0 |}.

(** [addStep] creates one object and pushes its address. *)
Definition addStep (a : Tracker.addStep_args) (t : ExecutionTracker)
  : ExecutionTracker * string :=
  let n := S (stepCounter t) in
  ({| objects := objects t ++ [Tracker.mk_step n a];
      steps := steps t ++ [length (objects t)];
      stepCounter := n |},
   Tracker.step_id n).

(** [updateStepDuration] assigns to the object that [find] returns. *)
Definition updateStepDuration (i : string) (d : Z) (t : ExecutionTracker)
  : ExecutionTracker :=
  match list_find (fun l => Tracker.id <$> objects t !! l = Some i) (steps t) with
  | Some (_, l) =>
      {| objects := alter (Tracker.set_duration d) l (objects t);
         steps := steps t;
         stepCounter := stepCounter t |}
  | None => t
  end.

(** [getSteps]: a new array that holds the same addresses. *)
Definition getSteps (t : ExecutionTracker) : list nat := steps t.

(** [clear] points [this.steps] to a new empty array; the objects stay
    where they are for whoever still refers to them. *)
Definition clear (t : ExecutionTracker) : ExecutionTracker :=
  {| objects := objects t; steps := []; stepCounter := 0 |}.

(** What the holder of an array of addresses reads through it. *)
Definition view (arr : list nat) (t : ExecutionTracker)
  : list Tracker.ExecutionStep :=
  omap (fun l => objects t !! l) arr.

(** The tracker as the class without a store describes it. *)
Definition contents (t : ExecutionTracker) : Tracker.ExecutionTracker :=
  {| Tracker.steps := view (steps t) t; Tracker.stepCounter := stepCounter t |}.

Definition apply_op (t : ExecutionTracker) (o : Tracker.op) : ExecutionTracker :=
  match o with
  | Tracker.OpAddStep a => (addStep a t).1
  | Tracker.OpUpdateStepDuration i d => updateStepDuration i d t
  | Tracker.OpClear => clear t
  end.

Definition apply_ops (os : list Tracker.op) (t : ExecutionTracker)
  : ExecutionTracker :=
  foldl apply_op t os.

End TrackerStore.

(** ** The tools and [executeAgentQuery] ([src/agent-executor.ts])

    They work on the one tracker of the module.  Each tool body runs up to
    its [await axios...] ([_begin]) and goes on when that call has settled
    ([_settle]); other code of the module may use the tracker in between.
    In a [metadata] object a property whose value is [undefined] is left
    out, as in the JSON text the steps are sent as.  A string stands for
    the sequence of its code units. *)

Module Agent.
Import Tracker.



(** [error instanceof Error ? error.message : 'Unknown error'] *)
Definition error_text (e : thrown) : string :=
  match e with
  | ErrorObj m => m
  | NonError => "Unknown error"
  end.



(** The [TypeError] of the runtime on [null.p]. *)
Definition TypeError_null (p : string) : thrown :=
  ErrorObj ("Cannot read properties of null (reading '" +:+ p +:+ "')").

(** An object literal entry that is there when its value is defined. *)
Definition entry (k : string) (v : any) : list (string * Json) :=
  match v with
  | Some j => [(k, j)]
  | None => []
  end.

Definition step (ty : step_type) (c a tg : string) (md : any) (now : string)
  : addStep_args :=
  {| a_type := ty; a_content := c; a_actor := a; a_target := tg;
     a_metadata := md; a_now := now |}.



Section Tools.
Variable JSON_stringify : Json → string.



(** *** addReminderTool *)






(** *** listRemindersTool *)





(** *** sendEmailReminderTool *)







End Tools.

(** *** executeAgentQuery *)

(** What happens around one run: the clock readings, whether
    [createToolCallingAgent] and [agentExecutor.invoke] settle or throw,
    and what is done with the tracker while the run waits for them (the
    tools that the agent runs, any other run on the same tracker). *)
Record run_env := {
  q_at_start : string;
  q_startTime : Z;
  q_create : option thrown;
  q_during_create : list op;
  q_at_llm : string;
  q_invoke : string + thrown;
  q_during_invoke : list op;
  q_endTime : Z;
  q_at_output : string;
  q_at_end : string;
  q_at_error : string
}.

Record query_result := {
  output : string;
  result_steps : list ExecutionStep
}.

(** [error instanceof Error ? error.message : 'Unknown error occurred'] *)
Definition run_error_text (e : thrown) : string :=
  match e with
  | ErrorObj m => m
  | NonError => "Unknown error occurred"
  end.

Definition executeAgentQuery_catch (e : thrown) (env : run_env)
    (t : ExecutionTracker) : ExecutionTracker * (query_result + thrown) :=
  let errorMessage := run_error_text e in
  let t := (addStep (step error ("Agent execution failed: " +:+ errorMessage)
                       "Agent" "User"
                       (Some (JObj [("error", JStr errorMessage)]))
                       (q_at_error env)) t).1 in
  (t, inr e).

Definition executeAgentQuery (query : Json) (env : run_env)
    (t : ExecutionTracker) : ExecutionTracker * (query_result + thrown) :=
  let t := clear t in
  let t := (addStep (step start
                       ("Processing query: " +:+ String "034"%char
                          (ToString query +:+ String "034"%char EmptyString))
                       "User" "Agent"
                       (Some (JObj [("query", query)]))
                       (q_at_start env)) t).1 in
  let t := apply_ops (q_during_create env) t in
  match q_create env with
  | Some e => executeAgentQuery_catch e env t
  | None =>
      let '(t, llmStepId) :=
        addStep (step llm_response "Analyzing query and planning actions..."
                   "Agent" "LLM" undefined (q_at_llm env)) t in
      let t := apply_ops (q_during_invoke env) t in
      match q_invoke env with
      | inr e => executeAgentQuery_catch e env t
      | inl response_output =>
          let duration := (q_endTime env - q_startTime env)%Z in
          let t := updateStepDuration llmStepId duration t in
          let t := (addStep (step llm_response response_output "LLM" "User"
                               (Some (JObj [("totalDuration", JNum duration)]))
                               (q_at_output env)) t).1 in
          let t := (addStep (step end_ "Query execution completed"
                               "Agent" "User" undefined (q_at_end env)) t).1 in
          (t, inl {| output := response_output; result_steps := getSteps t |})
      end
  end.

End Agent.

(** ** Wire types ([src/mcp-protocol.ts]) *)

Inductive rpc_id :=
  | IdNum (n : Z)
  | IdStr (s : string).

Record MCPRequest := {
  rq_id : rpc_id;
  rq_method : string;
  rq_params : any
}.

Record inputSchema_t := {
  properties : list (string * Json);
  required : option (list string)
}.

Record MCPTool := {
  name : string;
  description : string;
  inputSchema : inputSchema_t
}.

Record features_t := {
  streaming : option bool;
  cancellation : option bool;
  progress : option bool
}.

Record MCPCapabilities := {
  cap_tools : list MCPTool;
  version : string;
  features : features_t
}.

Record content_block := {
  cb_type : string;
  cb_text : string
}.

(** The payloads that travel in [result]: the three the server builds, and
    [ROther] for any other value without a [tools] property that a peer
    may send, [null] and the other values that count as false among
    them. *)
Inductive result_value :=
  | RCapabilities (c : MCPCapabilities)
  | RToolList (ts : list MCPTool)
  | RContent (blocks : list content_block)
  | ROther (j : Json).

Record rpc_error := {
  code : Z;
  message : string;
  data : any
}.

Record MCPResponse := {
  rs_id : rpc_id;
  result : option result_value;
  error : option rpc_error
}.

(** [payload.tools], for a payload other than [null]. *)
Definition tools_of (r : result_value) : option (list MCPTool) :=
  match r with
  | RCapabilities c => Some (cap_tools c)
  | RToolList ts => Some ts
  | RContent _ => None
  | ROther _ => None
  end.

(** [!!payload] *)
Definition result_truthy (r : result_value) : bool :=
  match r with
  | ROther j => ToBoolean (Some j)
  | _ => true
  end.

(** An HTTP reply as the peer sees it after [res.status(..).json(body)]:
    the body is serialised when [json] is called, so it is a value. *)
Record http_reply := {
  status : Z;
  body : MCPResponse
}.

(** ** MCPServerProtocol ([src/mcp-server-protocol.ts]) *)

Module Server.

Record session_info := {
  clientInfo : any;
  connectedAt : string
}.

(** [activeSessions] is a [Map] keyed by the [mcp-session-id] header, which
    is [undefined] ([None]) when the header is absent. *)
Record MCPServerProtocol := {
  tools : list MCPTool;
  activeSessions : gmap (option string) session_info
}.

(** [s] between double quotes, for the quoted examples in the descriptions. *)
Definition q (s : string) : string :=
  String "034"%char (s +:+ String "034"%char EmptyString).

Definition str_prop (d : string) : Json :=
  JObj [("type", JStr "string"); ("description", JStr d)].

Definition add_reminder_tool : MCPTool :=
  {| name := "add_reminder";
     description := "Adds a new reminder for a specific task at a given time. Use this to add a new reminder.";
     inputSchema :=
       {| properties :=
            [("time", str_prop ("The time for the reminder, e.g., " +:+ q "10:00 AM" +:+ ", " +:+ q "tonight at 8pm" +:+ "."));
             ("task", str_prop ("The task or message for the reminder, e.g., " +:+ q "call the doctor" +:+ ", " +:+ q "buy groceries" +:+ "."))];
          required := Some ["time"; "task"] |} |}.

Definition send_email_reminder_tool : MCPTool :=
  {| name := "send_email_reminder";
     description := "Sends an email reminder with calendar invite to a specified email address. Automatically parses time expressions and creates calendar events.";
     inputSchema :=
       {| properties :=
            [("time", str_prop ("The time for the reminder. Can be natural language like " +:+ q "tomorrow at 2 PM" +:+ ", " +:+ q "next week" +:+ ", " +:+ q "in 3 hours" +:+ ", or specific times like " +:+ q "10:00 AM" +:+ "."));
             ("task", str_prop ("The task or message for the reminder, e.g., " +:+ q "call the doctor" +:+ ", " +:+ q "team meeting" +:+ ", " +:+ q "dentist appointment" +:+ "."));
             ("email", JObj [("type", JStr "string"); ("format", JStr "email");
                             ("description", JStr "The email address to send the reminder to.")]);
             ("eventDuration", JObj [("type", JStr "number");
                             ("description", JStr "Duration of the event in minutes. If not specified, will be automatically suggested based on the task type.")]);
             ("eventLocation", str_prop "Location for the calendar event, if mentioned in the request.")];
          required := Some ["time"; "task"; "email"] |} |}.

Definition list_reminders_tool : MCPTool :=
  {| name := "list_reminders";
     description := "Lists all current reminders. Use this to find out what reminders have been set.";
     inputSchema := {| properties := []; required := Some [] |} |}.

(** [registerTools]: overwrites the registry with the three descriptors. *)
Definition registerTools (s : MCPServerProtocol) : MCPServerProtocol :=
  {| tools := [add_reminder_tool; send_email_reminder_tool; list_reminders_tool];
     activeSessions := activeSessions s |}.

(** [setupMCPEndpoints] installs the three routes below on [app]; it
    leaves the fields of [this] as they are. *)
Definition setupMCPEndpoints (s : MCPServerProtocol) : MCPServerProtocol := s.

(** [new MCPServerProtocol(app)]: field initialisers, then the constructor
    body. *)
Definition construct : MCPServerProtocol :=
  registerTools (setupMCPEndpoints {| tools := []; activeSessions := ∅ |}).

Inductive http_method := GET | POST.

(** One [axios] call of a tool implementation: it resolves with
    [response.data] or rejects. *)
Inductive outcome :=
  | Resolved (data : Json)
  | Rejected (e : thrown).

Definition internal_error_code : Z := (-32603)%Z.

Section Handlers.
(** The runtime's [JSON.stringify] and the remote services behind
    [axios]. *)
Variable JSON_stringify : Json → string.
Variable axios : http_method → string → any → outcome.

Definition executeAddReminder (args : any) : outcome :=
  axios POST "http://localhost:3000/tools/add_reminder" args.

Definition executeSendEmailReminder (args : any) : outcome :=
  axios POST "http://localhost:3000/tools/send_email_reminder" args.

Definition executeListReminders (args : any) : outcome :=
  axios GET "http://localhost:3000/tools/list_reminders" undefined.

(** [POST /mcp/initialize] *)
Definition initialize (sessionId : option string) (now : string)
    (mcpRequest : MCPRequest) (s : MCPServerProtocol)
  : MCPServerProtocol * http_reply :=
  let s' :=
    {| tools := tools s;
       activeSessions :=
         <[sessionId := {| clientInfo := rq_params mcpRequest ≫= prop "clientInfo";
                           connectedAt := now |}]> (activeSessions s) |} in
  let capabilities :=
    {| cap_tools := tools s';
       version := "2024-11-05";
       features := {| streaming := Some false;
                      cancellation := Some true;
                      progress := Some true |} |} in
  (s', {| status := 200;
          body := {| rs_id := rq_id mcpRequest;
                     result := Some (RCapabilities capabilities);
                     error := None |} |}).

(** [POST /mcp/tools/list] *)
Definition tools_list (mcpRequest : MCPRequest) (s : MCPServerProtocol)
  : http_reply :=
  {| status := 200;
     body := {| rs_id := rq_id mcpRequest;
                result := Some (RToolList (tools s));
                error := None |} |}.

(** The [switch (name)] of the call handler; its [default] throws an
    [Error] whose message is a template of the name. *)
Definition dispatch (name args : any) : outcome :=
  match name with
  | Some (JStr n) =>
      if decide (n = "add_reminder") then executeAddReminder args
      else if decide (n = "send_email_reminder") then executeSendEmailReminder args
      else if decide (n = "list_reminders") then executeListReminders args
      else Rejected (ErrorObj ("Unknown tool: " +:+ n))
  | _ =>
      match template (Number_toString JSON_stringify) name with
      | Some text => Rejected (ErrorObj ("Unknown tool: " +:+ text))
      | None => Rejected (ErrorObj TypeError_convert)
      end
  end.

(** [POST /mcp/tools/call].  The destructuring of [mcpRequest.params] and
    the log line with its template of the name stand before the [try]:
    when [params] is [undefined] or [null], or the name has no text, the
    handler throws and no reply is written ([None]). *)
Definition tools_call (mcpRequest : MCPRequest) : option http_reply :=
  match rq_params mcpRequest with
  | None | Some JNull => None
  | Some params =>
      let name := prop "name" params in
      let args := prop "arguments" params in
      match template (Number_toString JSON_stringify) name with
      | None => None
      | Some _ =>
          match dispatch name args with
          | Resolved result_ =>
              Some {| status := 200;
                      body := {| rs_id := rq_id mcpRequest;
                                 result := Some (RContent
                                   [{| cb_type := "text";
                                       cb_text := JSON_stringify result_ |}]);
                                 error := None |} |}
          | Rejected e =>
              Some {| status := 500;
                      body := {| rs_id := rq_id mcpRequest;
                                 result := None;
                                 error := Some
                                   {| code := internal_error_code;
                                      message := match e with
                                                 | ErrorObj m => m
                                                 | NonError => "Tool execution failed"
                                                 end;
                                      data := undefined |} |} |}
          end
      end
  end.

(** A request that reaches one of the three routes. *)
Inductive request :=
  | PostInitialize (sessionId : option string) (now : string) (rq : MCPRequest)
  | PostToolsList (rq : MCPRequest)
  | PostToolsCall (rq : MCPRequest).

Definition handle (r : request) (s : MCPServerProtocol)
  : MCPServerProtocol * option http_reply :=
  match r with
  | PostInitialize sid now rq =>
      let '(s', reply) := initialize sid now rq s in (s', Some reply)
  | PostToolsList rq => (s, Some (tools_list rq s))
  | PostToolsCall rq => (s, tools_call rq)
  end.
End Handlers.

(** One request handled, against the services as they are at that time. *)
Definition step (s s' : MCPServerProtocol) : Prop :=
  ∃ stringify axios r, s' = (handle stringify axios r s).1.

(** The states a server goes through: construction, then one request
    after the other. *)
Definition reachable (s : MCPServerProtocol) : Prop := rtc step construct s.

(** The names the call handler routes to an implementation. *)
Definition registered_names : list string :=
  ["add_reminder"; "send_email_reminder"; "list_reminders"].

(** [getServerStats] *)
Record server_stats := {
  toolsRegistered : nat;
  stats_activeSessions : nat;
  protocolVersion : string
}.

Definition getServerStats (s : MCPServerProtocol) : server_stats :=
  {| toolsRegistered := length (tools s);
     stats_activeSessions := size (activeSessions s);
     protocolVersion := "2024-11-05" |}.

(** Requests handled one after the other, each with the services as they
    are at that time. *)
Definition handle_all (stringify : Json → string)
    (rs : list ((http_method → string → any → outcome) * request))
    (s : MCPServerProtocol) : MCPServerProtocol :=
  foldl (fun s ar => (handle stringify ar.1 ar.2 s).1) s rs.

End Server.

(** ** MCPClient ([src/mcp-protocol.ts]) *)

Module Client.

Record MCPClient := {
  serverUrl : string;
  sessionId : string;
  capabilities : option result_value   (* [None] is [null] *)
}.

(** The constructor; [now] is [Date.now()] and [rnd] the nine characters
    [Math.random().toString(36).substr(2, 9)]. *)
Definition construct (url : string) (now : Z) (rnd : string) : MCPClient :=
  {| serverUrl := url;
     sessionId := "mcp_session_" +:+ pretty now +:+ "_" +:+ rnd;
     capabilities := None |}.

(** One [fetch] call: where it goes, its headers, its body. *)
Record fetch_call := {
  fc_server : string;
  fc_endpoint : string;
  fc_content_type : string;
  fc_session_id : string;
  fc_protocol_version : string;
  fc_body : MCPRequest
}.

(** What [await response.json()] gives. *)
Inductive json_outcome :=
  | Parsed (m : MCPResponse)
  | ParseFailed (e : thrown).

Record Response := {
  r_status : Z;
  r_statusText : string;
  r_json : json_outcome
}.

(** [response.ok] *)
Definition ok (r : Response) : bool :=
  bool_decide (200 ≤ r_status r ≤ 299)%Z.

Inductive fetch_outcome :=
  | Fetched (r : Response)
  | FetchFailed (e : thrown).

(** The client object together with the log of the network requests
    issued so far. *)
Record world := {
  this : MCPClient;
  wire : list fetch_call
}.

Inductive completion (A : Type) :=
  | Return (a : A)
  | Throw (e : thrown).
Arguments Return {A} a.
Arguments Throw {A} e.

(** A method body: it runs on the object and the network, completes
    normally or abruptly, and leaves both behind. *)
Definition act (A : Type) : Type := world → completion A * world.

Definition ret {A} (a : A) : act A := fun w => (Return a, w).
Definition throw {A} (e : thrown) : act A := fun w => (Throw e, w).
Definition bind {A B} (m : act A) (k : A → act B) : act B :=
  fun w => match m w with
           | (Return a, w') => k a w'
           | (Throw e, w') => (Throw e, w')
           end.
Definition try_catch {A} (m : act A) (h : thrown → act A) : act A :=
  fun w => match m w with
           | (Return a, w') => (Return a, w')
           | (Throw e, w') => h e w'
           end.
Definition get_this : act MCPClient := fun w => (Return (this w), w).
Definition set_capabilities (c : option result_value) : act unit :=
  fun w => (Return tt,
            {| this := {| serverUrl := serverUrl (this w);
                          sessionId := sessionId (this w);
                          capabilities := c |};
               wire := wire w |}).

Notation "'let!' x ':=' m 'in' k" := (bind m (fun x => k))
  (at level 10, x name, k at level 200, only parsing).

(** The [TypeError] of the runtime on [undefined.p]. *)
Definition TypeError_reading (p : string) : thrown :=
  ErrorObj ("Cannot read properties of undefined (reading '" +:+ p +:+ "')").

Section Methods.
(** The network: what [fetch] does with a call. *)
Variable fetch : fetch_call → fetch_outcome.

Definition await_fetch (c : fetch_call) : act Response :=
  fun w =>
    let w' := {| this := this w; wire := wire w ++ [c] |} in
    match fetch c with
    | Fetched r => (Return r, w')
    | FetchFailed e => (Throw e, w')
    end.

Definition await_json (r : Response) : act MCPResponse :=
  match r_json r with
  | Parsed m => ret m
  | ParseFailed e => throw e
  end.

Definition sendMCPRequest (endpoint : string) (request : MCPRequest)
  : act MCPResponse :=
  let! self := get_this in
  let! response := await_fetch
    {| fc_server := serverUrl self;
       fc_endpoint := endpoint;
       fc_content_type := "application/json";
       fc_session_id := sessionId self;
       fc_protocol_version := "2024-11-05";
       fc_body := request |} in
  if negb (ok response) then
    throw (ErrorObj ("MCP request failed: " +:+ pretty (r_status response)
                     +:+ " " +:+ r_statusText response))
  else
    let! mcpResponse := await_json response in
    match error mcpResponse with
    | Some e =>
        throw (ErrorObj ("MCP Error " +:+ pretty (code e) +:+ ": " +:+ message e))
    | None => ret mcpResponse
    end.

Definition initialize_request : MCPRequest :=
  {| rq_id := IdNum 1;
     rq_method := "initialize";
     rq_params := Some (JObj
       [("protocolVersion", JStr "2024-11-05");
        ("capabilities", JObj [("roots", JObj [("listChanged", JBool true)]);
                               ("sampling", JObj [])]);
        ("clientInfo", JObj [("name", JStr "MCP Learning Client");
                             ("version", JStr "1.0.0")])]) |}.

Definition initialize : act result_value :=
  try_catch
    (let! response := sendMCPRequest "/mcp/initialize" initialize_request in
     let! _ := set_capabilities (result response) in
     (* the log line reads [this.capabilities.tools.length] *)
     match result response with
     | None => throw (TypeError_reading "tools")
     | Some (ROther JNull) => throw (Agent.TypeError_null "tools")
     | Some caps =>
         match tools_of caps with
         | None => throw (TypeError_reading "length")
         | Some _ => ret caps
         end
     end)
    (fun _ => throw (ErrorObj "Failed to establish MCP connection")).

(** [discoverTools]; its guard is [!this.capabilities]. *)
Definition discoverTools : act (list MCPTool) :=
  let! self := get_this in
  match capabilities self with
  | None => throw (ErrorObj "MCP not initialized. Call initialize() first.")
  | Some caps =>
      if negb (result_truthy caps) then
        throw (ErrorObj "MCP not initialized. Call initialize() first.")
      else
        let! response := sendMCPRequest "/mcp/tools/list"
          {| rq_id := IdNum 2; rq_method := "tools/list"; rq_params := undefined |} in
        (* [response.result.tools || this.capabilities.tools], then
           [tools.forEach] *)
        match result response with
        | None => throw (TypeError_reading "tools")
        | Some (ROther JNull) => throw (Agent.TypeError_null "tools")
        | Some r =>
            match tools_of r with
            | Some ts => ret ts
            | None =>
                match tools_of caps with
                | Some ts => ret ts
                | None => throw (TypeError_reading "forEach")
                end
            end
        end
  end.

(** The envelope [callTool] builds; [now] is [Date.now()].  An
    [undefined] [parameters] leaves no [arguments] entry in the JSON
    text. *)
Definition callTool_request (toolName : string) (parameters : any) (now : Z)
  : MCPRequest :=
  {| rq_id := IdNum now;
     rq_method := "tools/call";
     rq_params := Some (JObj
       (("name", JStr toolName) ::
        match parameters with
        | Some p => [("arguments", p)]
        | None => []
        end)) |}.

Definition callTool (toolName : string) (parameters : any) (now : Z)
  : act (option result_value) :=
  try_catch
    (let! response := sendMCPRequest "/mcp/tools/call"
                  (callTool_request toolName parameters now) in
     ret (result response))
    (fun e => throw e).



(** [initializeMCPClient] of [src/mcp_client.ts], on the client it has
    just constructed: the handshake, then the discovery; what either
    throws is thrown on. *)
Definition initializeMCPClient : act MCPClient :=
  try_catch
    (let! capabilities_ := initialize in
     let! tools_ := discoverTools in
     let! mcpClient := get_this in
     ret mcpClient)
    (fun e => throw e).

End Methods.

(** [getSessionInfo]: [this.capabilities?.tools.length || 0] reads
    [length] of [tools] whenever [capabilities] is neither [null] nor
    [undefined]. *)
Record session_info_t := {
  si_sessionId : string;
  si_serverUrl : string;
  si_initialized : bool;
  si_availableTools : nat
}.

Definition getSessionInfo : act session_info_t :=
  let! self := get_this in
  match capabilities self with
  | None | Some (ROther JNull) =>
      ret {| si_sessionId := sessionId self;
             si_serverUrl := serverUrl self;
             si_initialized := false;
             si_availableTools := 0 |}
  | Some caps =>
      match tools_of caps with
      | Some ts =>
          ret {| si_sessionId := sessionId self;
                 si_serverUrl := serverUrl self;
                 si_initialized := result_truthy caps;
                 si_availableTools := length ts |}
      | None => throw (TypeError_reading "length")
      end
  end.

(** The methods of a client object, and a sequence of calls on it, each
    with the network as it is at that time. *)
Inductive method :=
  | MInitialize
  | MDiscoverTools
  | MCallTool (toolName : string) (parameters : any) (now : Z)
  | MGetSessionInfo.

Definition invoke (fetch : fetch_call → fetch_outcome) (m : method) (w : world)
  : world :=
  match m with
  | MInitialize => (initialize fetch w).2
  | MDiscoverTools => (discoverTools fetch w).2
  | MCallTool n p now => (callTool fetch n p now w).2
  | MGetSessionInfo => (getSessionInfo w).2
  end.

Definition invoke_all (calls : list ((fetch_call → fetch_outcome) * method))
    (w : world) : world :=
  foldl (fun w fm => invoke fm.1 fm.2 w) w calls.

End Client.

(** ** Client and server joined by HTTP *)

(** The reason phrase that goes with a status set by [res.status]. *)
Definition STATUS_CODES (st : Z) : string :=
  if decide (st = 200%Z) then "OK"
  else if decide (st = 500%Z) then "Internal Server Error"
  else EmptyString.

Definition deliver (r : http_reply) : Client.Response :=
  {| Client.r_status := status r;
     Client.r_statusText := STATUS_CODES (status r);
     Client.r_json := Client.Parsed (body r) |}.

(** [fetch] against a server in state [s]; [now] is the server's clock.  A
    path that is not routed gets the 404 page.  A handler that throws
    before it replies leaves the request unanswered; the model ends that
    wait as a failed [fetch]. *)
Definition fetch_from (JSON_stringify : Json → string)
    (axios : Server.http_method → string → any → Server.outcome)
    (s : Server.MCPServerProtocol) (now : string)
    (c : Client.fetch_call) : Client.fetch_outcome :=
  let rq := Client.fc_body c in
  let ep := Client.fc_endpoint c in
  if decide (ep = "/mcp/initialize") then
    Client.Fetched (deliver
      (Server.initialize (Some (Client.fc_session_id c)) now rq s).2)
  else if decide (ep = "/mcp/tools/list") then
    Client.Fetched (deliver (Server.tools_list rq s))
  else if decide (ep = "/mcp/tools/call") then
    match Server.tools_call JSON_stringify axios rq with
    | Some r => Client.Fetched (deliver r)
    | None => Client.FetchFailed (ErrorObj "fetch failed")
    end
  else Client.Fetched
         {| Client.r_status := 404;
            Client.r_statusText := "Not Found";
            Client.r_json := Client.ParseFailed (ErrorObj "Unexpected token") |}.

(** ** The tool server ([src/mcp_server.ts])

    The HTTP endpoints behind the tools, on the reminders the process
    keeps in [remindersDb].  [req.body] is what the JSON body parser
    passes on: an object or an array, [{}] when the request had no JSON
    body. *)

Module ToolServer.

Record Reminder := {
  id : string;
  time : any;
  task : any;
  email : any;
  createdAt : string
}.

(** A reminder in a JSON reply. *)
Definition reminder_json (r : Reminder) : Json :=
  JObj ([("id", JStr (id r))]
        ++ Agent.entry "time" (time r)
        ++ Agent.entry "task" (task r)
        ++ Agent.entry "email" (email r)
        ++ [("createdAt", JStr (createdAt r))]).

Record reply := {
  status : Z;
  json : Json
}.

(** Whether [if (v)] takes [v] for true. *)
Definition truthy (v : any) : bool :=
  match v with
  | None => false
  | Some JNull => false
  | Some (JBool b) => b
  | Some (JNum n) => negb (n =? 0)%Z
  | Some (JStr s) => negb (bool_decide (s = EmptyString))
  | Some (JArr _) => true
  | Some (JObj _) => true
  end.

(** [a || b] *)
Definition or_else (a b : any) : any := if truthy a then a else b.

Section Handlers.
(** The runtime's [JSON.stringify], and the page that the framework's
    error handler writes, with status 500, when a handler throws. *)
Variable JSON_stringify : Json → string.
Variable error_page : string.

(** [GET /tools/list_reminders] *)
Definition list_reminders (remindersDb : list Reminder) : reply :=
  {| status := 200; json := JArr (reminder_json <$> remindersDb) |}.

(** [POST /tools/add_reminder]; [now], [rnd] and [iso] are [Date.now()],
    the random part of the id and [new Date().toISOString()].  The log
    line in front of the check has templates of [time] and [task]: when
    one of them has no text the handler throws there, and the reply is
    the framework's, whose body is a page and no JSON. *)
Definition add_reminder (body : Json) (now : Z) (rnd iso : string)
    (remindersDb : list Reminder) : list Reminder * reply :=
  let time_ := prop "time" body in
  let task_ := prop "task" body in
  match template (Number_toString JSON_stringify) time_,
        template (Number_toString JSON_stringify) task_ with
  | Some time_text, Some task_text =>
      if negb (truthy time_) || negb (truthy task_) then
        (remindersDb,
         {| status := 400;
            json := JObj [("error", JStr "Missing 'time' or 'task' in request body.")] |})
      else
        let newReminder :=
          {| id := "reminder_" +:+ pretty now +:+ "_" +:+ rnd;
             time := time_;
             task := task_;
             email := undefined;
             createdAt := iso |} in
        (remindersDb ++ [newReminder],
         {| status := 200;
            json := JObj [("message", JStr ("Reminder added: " +:+ task_text
                                            +:+ " at " +:+ time_text));
                          ("reminder", reminder_json newReminder)] |})
  | _, _ => (remindersDb, {| status := 500; json := JStr error_page |})
  end.

(** What [POST /tools/send_email_reminder] posts to the email server;
    [SENDER_NAME] is the environment variable. *)
Definition email_request (body : Json) (SENDER_NAME : option string) : Json :=
  JObj (Agent.entry "to" (prop "email" body)
        ++ Agent.entry "reminderText" (prop "task" body)
        ++ Agent.entry "reminderTime" (prop "time" body)
        ++ Agent.entry "senderName"
             (or_else (prop "senderName" body) (JStr <$> SENDER_NAME))
        ++ [("includeCalendarInvite", JBool true)]
        ++ Agent.entry "eventDuration" (prop "eventDuration" body)
        ++ Agent.entry "eventLocation" (prop "eventLocation" body)).

(** [POST /tools/send_email_reminder]; [email_server] is what
    [axios.post] to the email server comes back with.  The handler is
    [async] and its log line, with templates of [time], [task], [email],
    [eventDuration || 'auto'] and [eventLocation || 'none'], stands in
    front of the check and of the [try]: when one of them has no text the
    handler throws there and no reply is written ([None]). *)
Definition send_email_reminder (body : Json) (SENDER_NAME : option string)
    (email_server : Json → Server.outcome) (now : Z) (rnd iso : string)
    (remindersDb : list Reminder) : list Reminder * option reply :=
  let time_ := prop "time" body in
  let task_ := prop "task" body in
  let email_ := prop "email" body in
  let num := Number_toString JSON_stringify in
  match template num time_, template num task_, template num email_,
        template num (or_else (prop "eventDuration" body) (Some (JStr "auto"))),
        template num (or_else (prop "eventLocation" body) (Some (JStr "none"))) with
  | Some time_text, Some task_text, Some email_text, Some _, Some _ =>
      if negb (truthy time_) || negb (truthy task_) || negb (truthy email_) then
        (remindersDb,
         Some {| status := 400;
                 json := JObj [("error",
                   JStr "Missing required fields: 'time', 'task', or 'email'")] |})
      else
        match email_server (email_request body SENDER_NAME) with
        | Server.Resolved emailResponse_data =>
            let newReminder :=
              {| id := "email_reminder_" +:+ pretty now +:+ "_" +:+ rnd;
                 time := time_;
                 task := task_;
                 email := email_;
                 createdAt := iso |} in
            (remindersDb ++ [newReminder],
             Some {| status := 200;
                json := JObj
                  [("message",
                      JStr ("Email reminder with calendar invite sent to "
                            +:+ email_text +:+ ": " +:+ task_text
                            +:+ " at " +:+ time_text));
                   ("emailResponse", emailResponse_data);
                   ("reminder", reminder_json newReminder);
                   ("calendarIncluded", JBool true);
                   ("eventDetails",
                      JObj (Agent.entry "duration"
                              (or_else (prop "eventDuration" body)
                                 (Some (JStr "auto-suggested")))
                            ++ Agent.entry "location"
                                 (or_else (prop "eventLocation" body)
                                    (Some (JStr "not specified")))))] |})
        | Server.Rejected e =>
            (remindersDb,
             Some {| status := 500;
                json := JObj
                  [("error", JStr "Failed to send email reminder");
                   ("details", JStr (Agent.error_text e));
                   ("suggestion",
                      JStr "Check if email server is running and configuration is correct")] |})
        end
  | _, _, _, _, _ => (remindersDb, None)
  end.

(** [axios] on a reply: it resolves with the body when the status is in
    200..299 and rejects with its status error otherwise. *)
Definition axios_settle (r : reply) : Server.outcome :=
  if bool_decide (200 ≤ status r < 300)%Z then Server.Resolved (json r)
  else Server.Rejected
         (ErrorObj ("Request failed with status code " +:+ pretty (status r))).

(** [POST /agent/execute]: the reply is the result of the run, or the
    error text with the steps given in its place. *)
Record execute_reply := {
  ex_status : Z;
  ex_output : option string;
  ex_error : option string;
  ex_steps : option (list Tracker.ExecutionStep)
}.

(** The reply of the [catch] of [POST /agent/execute]. *)
Definition execute_failed (iso : string) : execute_reply :=
  {| ex_status := 500;
     ex_output := None;
     ex_error := Some "Failed to execute query";
     ex_steps := Some
       [{| Tracker.id := "error";
           Tracker.type := Tracker.error;
           Tracker.timestamp := iso;
           Tracker.content := "Internal server error";
           Tracker.actor := "System";
           Tracker.target := "Client";
           Tracker.duration := None;
           Tracker.metadata := undefined |}] |}.

(** [POST /agent/execute].  The log line with its template of the query
    is the first statement of the [try]: when the query has no text the
    [catch] replies and [executeAgentQuery] is not called. *)
Definition agent_execute (body : Json) (env : Agent.run_env) (iso : string)
    (tracker : Tracker.ExecutionTracker)
  : Tracker.ExecutionTracker * execute_reply :=
  match prop "query" body with
  | Some query =>
      if truthy (Some query) then
        match template (Number_toString JSON_stringify) (Some query) with
        | None => (tracker, execute_failed iso)
        | Some _ =>
            match Agent.executeAgentQuery query env tracker with
            | (tracker', inl r) =>
                (tracker',
                 {| ex_status := 200;
                    ex_output := Some (Agent.output r);
                    ex_error := None;
                    ex_steps := Some (Agent.result_steps r) |})
            | (tracker', inr _) => (tracker', execute_failed iso)
            end
        end
      else
        (tracker,
         {| ex_status := 400;
            ex_output := None;
            ex_error := Some "Missing 'query' in request body.";
            ex_steps := None |})
  | None =>
      (tracker,
       {| ex_status := 400;
          ex_output := None;
          ex_error := Some "Missing 'query' in request body.";
          ex_steps := None |})
  end.

(** The requests to the reminder endpoints, and a sequence of them. *)
Inductive request :=
  | GetListReminders
  | PostAddReminder (body : Json) (now : Z) (rnd iso : string)
  | PostSendEmailReminder (body : Json) (SENDER_NAME : option string)
      (email_server : Json → Server.outcome) (now : Z) (rnd iso : string).

Definition handle (r : request) (remindersDb : list Reminder)
  : list Reminder * option reply :=
  match r with
  | GetListReminders => (remindersDb, Some (list_reminders remindersDb))
  | PostAddReminder body now rnd iso =>
      let '(db, reply) := add_reminder body now rnd iso remindersDb in
      (db, Some reply)
  | PostSendEmailReminder body env srv now rnd iso =>
      send_email_reminder body env srv now rnd iso remindersDb
  end.

Definition handle_all (rs : list request) (remindersDb : list Reminder)
  : list Reminder :=
  foldl (fun db r => (handle r db).1) remindersDb rs.

End Handlers.

End ToolServer.

(** ** Vocabulary of the statements *)

(** An envelope with exactly one of [result] and [error]. *)
Definition exactly_one_of_result_error (m : MCPResponse) : Prop :=
  (is_Some (result m) ∧ error m = None) ∨ (result m = None ∧ is_Some (error m)).

(** The implementation the [switch] of the call handler runs for a name. *)
Definition handler_of (axios : Server.http_method → string → any → Server.outcome)
    (n : string) : option (any → Server.outcome) :=
  if decide (n = "add_reminder") then Some (Server.executeAddReminder axios)
  else if decide (n = "send_email_reminder") then Some (Server.executeSendEmailReminder axios)
  else if decide (n = "list_reminders") then Some (Server.executeListReminders axios)
  else None.

(** The [fetch] call a client object makes for a request. *)
Definition call_of (c : Client.MCPClient) (endpoint : string) (rq : MCPRequest)
  : Client.fetch_call :=
  {| Client.fc_server := Client.serverUrl c;
     Client.fc_endpoint := endpoint;
     Client.fc_content_type := "application/json";
     Client.fc_session_id := Client.sessionId c;
     Client.fc_protocol_version := "2024-11-05";
     Client.fc_body := rq |}.

(** The ways a request of the client fails, with what [sendMCPRequest]
    throws: the transport call fails (no connection, a status outside
    200..299, a body that is not JSON), or the reply is an error envelope. *)
Inductive request_fails : Client.fetch_outcome → thrown → Prop :=
  | fails_fetch e :
      request_fails (Client.FetchFailed e) e
  | fails_status r :
      Client.ok r = false →
      request_fails (Client.Fetched r)
        (ErrorObj ("MCP request failed: " +:+ pretty (Client.r_status r)
                   +:+ " " +:+ Client.r_statusText r))
  | fails_json r e :
      Client.ok r = true → Client.r_json r = Client.ParseFailed e →
      request_fails (Client.Fetched r) e
  | fails_envelope r m e :
      Client.ok r = true → Client.r_json r = Client.Parsed m → error m = Some e →
      request_fails (Client.Fetched r)
        (ErrorObj ("MCP Error " +:+ pretty (code e) +:+ ": " +:+ message e)).

(** An object with an entry [toString] of its own: a value that has no
    text. *)
Definition has_own_toString (v : any) : Prop :=
  ∃ fs w, v = Some (JObj fs) ∧ obj_get "toString" fs = Some w.

(** Whether the text [c] occurs in the text [m]. *)
Definition occurs_in (c m : string) : Prop := is_Some (String.index 0 c m).

(** C1 as the specification words it, at one call [callTool(toolName,
    parameters)] against a server: the call completes without throwing, and
    the code of the error envelope the server writes is another one than
    the code of a tool failure. *)
Definition unknown_tool_told_apart (stringify : Json → string)
    (axios : Server.http_method → string → any → Server.outcome)
    (s : Server.MCPServerProtocol) (server_now : string)
    (toolName : string) (parameters : any) (now : Z) (w : Client.world) : Prop :=
  (∃ v, (Client.callTool (fetch_from stringify axios s server_now)
           toolName parameters now w).1 = Client.Return v)
  ∧ (∀ reply e,
       Server.tools_call stringify axios
         (Client.callTool_request toolName parameters now) = Some reply →
       error (body reply) = Some e →
       code e ≠ Server.internal_error_code).

(** C4 as the specification words it, at one run of [initialize()]: when
    the request fails with an error of text [cause], the error raised has
    that text in its message and [capabilities] is as before. *)
Definition initialize_failure_keeps_cause
    (fetch : Client.fetch_call → Client.fetch_outcome) (w : Client.world) : Prop :=
  ∀ cause,
    request_fails
      (fetch (call_of (Client.this w) "/mcp/initialize" Client.initialize_request))
      (ErrorObj cause) →
    ∃ raised,
      (Client.initialize fetch w).1 = Client.Throw (ErrorObj raised)
      ∧ occurs_in cause raised
      ∧ Client.capabilities (Client.this (Client.initialize fetch w).2)
        = Client.capabilities (Client.this w).

(** C5 as the specification words it, at two calls of [callTool] on one
    client: the ids of the two envelopes differ. *)
Definition callTool_ids_differ
    (toolName1 : string) (parameters1 : any) (now1 : Z)
    (toolName2 : string) (parameters2 : any) (now2 : Z) : Prop :=
  rq_id (Client.callTool_request toolName1 parameters1 now1)
  ≠ rq_id (Client.callTool_request toolName2 parameters2 now2).

(** A step with its [duration] left out. *)
Definition without_duration (s : Tracker.ExecutionStep) : Tracker.ExecutionStep :=
  {| Tracker.id := Tracker.id s;
     Tracker.type := Tracker.type s;
     Tracker.timestamp := Tracker.timestamp s;
     Tracker.content := Tracker.content s;
     Tracker.actor := Tracker.actor s;
     Tracker.target := Tracker.target s;
     Tracker.duration := None;
     Tracker.metadata := Tracker.metadata s |}.

(** The ids in a tracker are [step-1] .. [step-n], [n] the counter. *)
Definition numbered (t : Tracker.ExecutionTracker) : Prop :=
  Tracker.id <$> Tracker.steps t
  = Tracker.step_id <$> seq 1 (Tracker.stepCounter t).

(** The array of a tracker holds distinct addresses of existing objects. *)
Definition sound (t : TrackerStore.ExecutionTracker) : Prop :=
  NoDup (TrackerStore.steps t)
  ∧ Forall (λ l, l < length (TrackerStore.objects t)) (TrackerStore.steps t).


(** The [addStep] calls among some uses of a tracker, and whether [clear]
    is among them. *)
Definition added (os : list Tracker.op) : list Tracker.addStep_args :=
  omap (λ o, match o with Tracker.OpAddStep a => Some a | _ => None end) os.

Definition no_clear (os : list Tracker.op) : Prop :=
  Forall (λ o, o ≠ Tracker.OpClear) os.

(** The steps that [calls] give when the counter stands at [n]. *)
Definition numbered_from (n : nat) (calls : list Tracker.addStep_args)
  : list Tracker.ExecutionStep :=
  imap (λ k a, Tracker.mk_step (S (n + k)) a) calls.

(** The session header values of the initialize requests among [rs]. *)
Definition initialized_ids
    (rs : list ((Server.http_method → string → any → Server.outcome) * Server.request))
  : list (option string) :=
  omap (λ ar, match ar.2 with
              | Server.PostInitialize sid _ _ => Some sid
              | _ => None
              end) rs.

(** A request of a client object as it must look on the wire. *)
Definition well_addressed (c : Client.MCPClient) (fc : Client.fetch_call) : Prop :=
  Client.fc_server fc = Client.serverUrl c
  ∧ Client.fc_session_id fc = Client.sessionId c
  ∧ Client.fc_protocol_version fc = "2024-11-05"
  ∧ Client.fc_content_type fc = "application/json".

Definition three_tools : list MCPTool :=
  [Server.add_reminder_tool; Server.send_email_reminder_tool;
   Server.list_reminders_tool].


(** Sample values for the examples. *)
Module Samples.

Definition demo_call (c : string) : Tracker.addStep_args :=
  {| Tracker.a_type := Tracker.tool_call;
     Tracker.a_content := c;
     Tracker.a_actor := "Agent";
     Tracker.a_target := "MCPClient";
     Tracker.a_metadata := undefined;
     Tracker.a_now := "2025-01-01T00:00:00.000Z" |}.

Definition demo_tracker : Tracker.ExecutionTracker :=
  (Tracker.addSteps [demo_call "a"; demo_call "b"; demo_call "c"] Tracker.new).1.

(** Services that answer every call, and services that are down. *)
Definition axios_up : Server.http_method → string → any → Server.outcome :=
  fun _ _ _ => Server.Resolved (JObj [("success", JBool true)]).

Definition axios_down : Server.http_method → string → any → Server.outcome :=
  fun _ _ _ => Server.Rejected (ErrorObj "connect ECONNREFUSED 127.0.0.1:3000").

Definition client0 : Client.MCPClient :=
  Client.construct "http://localhost:3000" 1700000000000 "k3j9x0q2a".

Definition w0 : Client.world := {| Client.this := client0; Client.wire := [] |}.

(** A network with no route to the server, and one whose server answers
    every request with an error envelope. *)
Definition fetch_down : Client.fetch_call → Client.fetch_outcome :=
  fun _ => Client.FetchFailed (ErrorObj "fetch failed").

Definition fetch_refusing : Client.fetch_call → Client.fetch_outcome :=
  fun c => Client.Fetched
    {| Client.r_status := 200;
       Client.r_statusText := "OK";
       Client.r_json := Client.Parsed
         {| rs_id := rq_id (Client.fc_body c);
            result := None;
            error := Some {| code := (-32000)%Z;
                             message := "Server not ready";
                             data := undefined |} |} |}.

(** A server that answers the handshake with an object that has no
    [tools]. *)
Definition fetch_odd : Client.fetch_call → Client.fetch_outcome :=
  fun c => Client.Fetched
    {| Client.r_status := 200;
       Client.r_statusText := "OK";
       Client.r_json := Client.Parsed
         {| rs_id := rq_id (Client.fc_body c);
            result := Some (ROther (JObj []));
            error := None |} |}.

Definition add_reminder_args : Json :=
  JObj [("time", JStr "10:00 AM"); ("task", JStr "call the doctor")].

End Samples.

(** More sample values. *)
Module MoreSamples.

Definition iso0 : string := "2025-01-01T00:00:00.000Z".

(** A run in which the agent is created, one tool records a step and sets
    its duration, and the agent answers. *)
Definition run_ok : Agent.run_env :=
  {| Agent.q_at_start := iso0;
     Agent.q_startTime := 1000;
     Agent.q_create := None;
     Agent.q_during_create := [];
     Agent.q_at_llm := iso0;
     Agent.q_invoke := inl "You have no reminders set.";
     Agent.q_during_invoke :=
       [Tracker.OpAddStep (Samples.demo_call "list_reminders()");
        Tracker.OpUpdateStepDuration "step-3" 40];
     Agent.q_endTime := 1500;
     Agent.q_at_output := iso0;
     Agent.q_at_end := iso0;
     Agent.q_at_error := iso0 |}.

(** A run in which the agent throws. *)
Definition run_bad : Agent.run_env :=
  {| Agent.q_at_start := iso0;
     Agent.q_startTime := 1000;
     Agent.q_create := None;
     Agent.q_during_create := [];
     Agent.q_at_llm := iso0;
     Agent.q_invoke := inr (ErrorObj "quota exceeded");
     Agent.q_during_invoke := [];
     Agent.q_endTime := 1500;
     Agent.q_at_output := iso0;
     Agent.q_at_end := iso0;
     Agent.q_at_error := iso0 |}.

Definition init_request (n : Z) : MCPRequest :=
  {| rq_id := IdNum n; rq_method := "initialize";
     rq_params := Some (JObj [("clientInfo", JObj [("name", JStr "cli")])]) |}.

Definition call_request (params : Json) : MCPRequest :=
  {| rq_id := IdNum 7; rq_method := "tools/call"; rq_params := Some params |}.





(** The page of the framework's error handler in production. *)
Definition error_page0 : string :=
  "<!DOCTYPE html><html lang=en><head><meta charset=utf-8><title>Error</title></head><body><pre>Internal Server Error</pre></body></html>".

(** The tool services as the tool server with no reminders answers. *)
Definition axios_tool_server : Server.http_method → string → any → Server.outcome :=
  fun _ _ args =>
    ToolServer.axios_settle
      (ToolServer.add_reminder ToString error_page0 (default (JObj []) args)
         1700000000000 "k3j9x0q2a" iso0 []).2.

End MoreSamples.

(** * Properties *)

(** ** The execution tracker *)

Section TrackerFacts.
Import Tracker.

Lemma step_id_inj : Inj (=) (=) step_id.
Proof.
  intros a b H. unfold step_id in H.
  apply (inj pretty). by simplify_eq/=.
Qed.

Lemma addStep_steps a t :
  steps (addStep a t).1 = steps t ++ [mk_step (S (stepCounter t)) a].
Proof. done. Qed.

Lemma addSteps_cons a calls t :
  addSteps (a :: calls) t
  = ((addSteps calls (addStep a t).1).1,
     (addStep a t).2 :: (addSteps calls (addStep a t).1).2).
Proof. simpl. by destruct (addSteps calls _). Qed.

(** A run of [addStep] calls appends one step per call, numbered on from
    the counter, and returns those ids. *)
Lemma addSteps_spec calls : ∀ t,
  steps (addSteps calls t).1
    = steps t ++ imap (λ k a, mk_step (S (stepCounter t + k)) a) calls
  ∧ stepCounter (addSteps calls t).1 = stepCounter t + length calls
  ∧ (addSteps calls t).2
    = (λ k, step_id (S (stepCounter t + k))) <$> seq 0 (length calls).
Proof.
  induction calls as [|a calls IH]; intros t.
  - simpl. rewrite app_nil_r. split_and!; [done | lia | done].
  - rewrite addSteps_cons. destruct (IH (addStep a t).1) as (Hs & Hc & Hi).
    cbn [fst snd]. rewrite Hs, Hc, Hi. cbn [addStep fst snd steps stepCounter length].
    split_and!.
    + rewrite <- app_assoc. cbn [app imap]. do 2 f_equal.
      * f_equal. lia.
      * apply imap_ext. intros k x _. simpl. f_equal. lia.
    + lia.
    + cbn [seq fmap list_fmap]. f_equal.
      * f_equal. lia.
      * rewrite <- fmap_S_seq, <- list_fmap_compose.
        apply list_fmap_ext. intros _ k _. simpl. f_equal. lia.
Qed.

Lemma imap_mk_step_ids calls m :
  id <$> imap (λ k a, mk_step (S (m + k)) a) calls
  = step_id <$> seq (S m) (length calls).
Proof.
  revert m. induction calls as [|a calls IH]; intros m; simpl; [done|].
  f_equal; [f_equal; lia|].
  etrans; [|apply (IH (S m))]. f_equal. apply imap_ext.
  intros k x _. simpl. f_equal. lia.
Qed.

(** C8.  [clear] leaves the tracker with no steps and the counter at 0,
    whatever it held before; the [n] calls of [addStep] that follow yield
    exactly [n] steps, the [k]-th built from the [k]-th call, with no
    duration, and carrying as id the text "step-" followed by [k] in
    decimal, which is also the id the call returned; these ids count up
    from step-1 to step-n without repetition, and nothing of the state
    before [clear] is left. *)
Theorem clear_then_addSteps (t : ExecutionTracker) (calls : list addStep_args) :
  let n := length calls in
  let run := addSteps calls (clear t) in
  steps (clear t) = [] ∧ stepCounter (clear t) = 0
  ∧ getSteps run.1
    = imap (λ k a, {| id := "step-" +:+ pretty (S k);
                      type := a_type a;
                      timestamp := a_now a;
                      content := a_content a;
                      actor := a_actor a;
                      target := a_target a;
                      duration := None;
                      metadata := a_metadata a |}) calls
  ∧ id <$> getSteps run.1 = (λ k, "step-" +:+ pretty k) <$> seq 1 n
  ∧ run.2 = (λ k, "step-" +:+ pretty k) <$> seq 1 n
  ∧ stepCounter run.1 = n
  ∧ NoDup (id <$> getSteps run.1)
  ∧ (∀ i j si sj, getSteps run.1 !! i = Some si → getSteps run.1 !! j = Some sj →
       i < j → ∃ a b, id si = "step-" +:+ pretty a
                      ∧ id sj = "step-" +:+ pretty b ∧ a < b).
Proof.
  intros n run. subst run. unfold getSteps.
  destruct (addSteps_spec calls (clear t)) as (Hs & Hc & Hi).
  simpl in Hs, Hc, Hi.
  assert (Hids : id <$> steps (addSteps calls (clear t)).1 = step_id <$> seq 1 n).
  { rewrite Hs. apply (imap_mk_step_ids calls 0). }
  split_and!; try done.
  - rewrite Hi. rewrite <- fmap_S_seq, <- list_fmap_compose. done.
  - rewrite Hids. apply (NoDup_fmap_2 _). apply NoDup_seq.
  - intros i j si sj Hi' Hj' Hlt.
    assert (Hli : (id <$> steps (addSteps calls (clear t)).1) !! i = Some (id si))
      by (by rewrite list_lookup_fmap, Hi').
    assert (Hlj : (id <$> steps (addSteps calls (clear t)).1) !! j = Some (id sj))
      by (by rewrite list_lookup_fmap, Hj').
    rewrite Hids in Hli, Hlj.
    apply list_lookup_fmap_Some in Hli as (a & Ha & Hia).
    apply list_lookup_fmap_Some in Hlj as (b & Hb & Hjb).
    apply lookup_seq in Hia as [-> _]. apply lookup_seq in Hjb as [-> _].
    exists (1 + i), (1 + j). split_and!; [done | done | lia].
Qed.

(** C9.  [updateStepDuration] never touches the counter.  When no step
    carries the id the tracker is left as it is.  Otherwise the sequence
    splits around the first step with that id: the steps before and after
    it stay as they are and that step keeps every field but [duration],
    which becomes the given value. *)
Theorem updateStepDuration_frame (t : ExecutionTracker) (i : string) (d : Z) :
  stepCounter (updateStepDuration i d t) = stepCounter t
  ∧ length (steps (updateStepDuration i d t)) = length (steps t)
  ∧ ((∀ s, s ∈ steps t → id s ≠ i) → updateStepDuration i d t = t)
  ∧ ((∃ s, s ∈ steps t ∧ id s = i) →
      ∃ l1 s l2 s',
        steps t = l1 ++ s :: l2
        ∧ steps (updateStepDuration i d t) = l1 ++ s' :: l2
        ∧ (∀ x, x ∈ l1 → id x ≠ i)
        ∧ id s = i
        ∧ duration s' = Some d
        ∧ id s' = id s ∧ type s' = type s ∧ timestamp s' = timestamp s
        ∧ content s' = content s ∧ actor s' = actor s ∧ target s' = target s
        ∧ metadata s' = metadata s).
Proof.
  unfold updateStepDuration.
  destruct (list_find (λ s, id s = i) (steps t)) as [[k s]|] eqn:E.
  - apply list_find_Some in E as (Hk & Hid & Hmin). simpl.
    split_and!; [done | by rewrite length_insert | |].
    + intros Hno. exfalso. apply (Hno s); [|done].
      by eapply list_elem_of_lookup_2.
    + intros _. exists (take k (steps t)), s, (drop (S k) (steps t)), (set_duration d s).
      split_and!; try done.
      * by rewrite take_drop_middle.
      * apply insert_take_drop. by eapply lookup_lt_Some.
      * intros x Hx. apply list_elem_of_lookup in Hx as [j Hj].
        pose proof (lookup_lt_Some _ _ _ Hj) as Hlen.
        rewrite lookup_take_lt in Hj.
        2:{ rewrite length_take in Hlen. lia. }
        apply (Hmin j x Hj). rewrite length_take in Hlen. lia.
  - apply list_find_None in E. split_and!; [done..|].
    intros (s & Hin & Hid). exfalso.
    rewrite Forall_forall in E. by apply (E s).
Qed.

Lemma updateStepDuration_frame_witness :
  updateStepDuration "step-7" 12 Samples.demo_tracker = Samples.demo_tracker
  ∧ duration <$> steps (updateStepDuration "step-2" 12 Samples.demo_tracker)
    = [None; Some 12%Z; None].
Proof.
  pose proof (updateStepDuration_frame Samples.demo_tracker "step-7" 12) as (_ & _ & Hno & _).
  split.
  - apply Hno. intros s Hs. vm_compute in Hs.
    repeat (apply elem_of_cons in Hs as [->|Hs]; [by vm_compute|]).
    by apply elem_of_nil in Hs.
  - reflexivity.
Defined.

Lemma clear_then_addSteps_witness :
  let run := addSteps [Samples.demo_call "x"; Samples.demo_call "y"]
               (clear Samples.demo_tracker) in
  id <$> steps Samples.demo_tracker = ["step-1"; "step-2"; "step-3"]
  ∧ id <$> getSteps run.1 = ["step-1"; "step-2"]
  ∧ run.2 = ["step-1"; "step-2"]
  ∧ stepCounter run.1 = 2.
Proof.
  destruct (clear_then_addSteps Samples.demo_tracker
              [Samples.demo_call "x"; Samples.demo_call "y"])
    as (_ & _ & _ & Hids & Hret & Hn & _).
  split_and!; [reflexivity | exact Hids | exact Hret | exact Hn].
Defined.

Example tracker_restart :
  (addSteps [Samples.demo_call "x"; Samples.demo_call "y"] (clear Samples.demo_tracker)).2
  = ["step-1"; "step-2"].
Proof. reflexivity. Qed.

End TrackerFacts.

(** ** The protocol server *)

Section ServerFacts.
Import Server.
Variable JSON_stringify : Json → string.
Variable axios : http_method → string → any → outcome.

Lemma dispatch_handler_of (n : string) (args : any) :
  dispatch JSON_stringify axios (Some (JStr n)) args
  = match handler_of axios n with
    | Some h => h args
    | None => Rejected (ErrorObj ("Unknown tool: " +:+ n))
    end.
Proof. unfold dispatch, handler_of. by repeat case_decide. Qed.

(** The reply of the call handler to a request whose name is a string. *)
Lemma tools_call_string_name (rq : MCPRequest) (params : Json) (n : string) :
  rq_params rq = Some params →
  prop "name" params = Some (JStr n) →
  tools_call JSON_stringify axios rq
  = Some (match dispatch JSON_stringify axios (Some (JStr n))
                  (prop "arguments" params) with
          | Resolved r =>
              {| status := 200;
                 body := {| rs_id := rq_id rq;
                            result := Some (RContent
                              [{| cb_type := "text"; cb_text := JSON_stringify r |}]);
                            error := None |} |}
          | Rejected e =>
              {| status := 500;
                 body := {| rs_id := rq_id rq;
                            result := None;
                            error := Some
                              {| code := (-32603)%Z;
                                 message := match e with
                                            | ErrorObj m => m
                                            | NonError => "Tool execution failed"
                                            end;
                                 data := undefined |} |} |}
          end).
Proof.
  intros Hp Hn. unfold tools_call. rewrite Hp.
  destruct params; try done. rewrite Hn. cbn [template template_text].
  by destruct (dispatch _ _ _ _).
Qed.

Lemma handler_of_registered (n : string) :
  is_Some (handler_of axios n) ↔ n ∈ registered_names.
Proof.
  unfold handler_of, registered_names. rewrite !elem_of_cons, elem_of_nil.
  repeat case_decide; split; intros Hx; eauto;
    first [ by destruct Hx | by intuition simplify_eq ].
Qed.

Lemma registered_tool_names :
  name <$> tools construct = registered_names.
Proof. reflexivity. Qed.

Lemma NoDup_registered_names : NoDup registered_names.
Proof. compute_done. Qed.

(** No handler writes the registry. *)
Lemma handle_tools stringify ax r s : tools (handle stringify ax r s).1 = tools s.
Proof. by destruct r. Qed.

Lemma step_tools s s' : rtc step s s' → tools s' = tools s.
Proof.
  induction 1 as [|s1 s2 s3 (st & ax & r & ->) _ IH]; [done|].
  by rewrite IH, handle_tools.
Qed.

Lemma reachable_tools s : reachable s → tools s = tools construct.
Proof. apply step_tools. Qed.

(** The tools/call handler replies to every request that has [params]
    and a name the log line can print. *)
Lemma tools_call_replies rq :
  is_Some (tools_call JSON_stringify axios rq)
  ↔ ∃ p, rq_params rq = Some p ∧ p ≠ JNull
         ∧ is_Some (template (Number_toString JSON_stringify) (prop "name" p)).
Proof.
  unfold tools_call. destruct (rq_params rq) as [p|].
  - assert (Hd : p = JNull ∨ p ≠ JNull) by (destruct p; (by left) || by right).
    destruct Hd as [->|Hp].
    + split; [by intros []|by intros (? & [= <-] & ? & ?)].
    + assert (Heq : ∀ X : option http_reply,
                match p with JNull => None | _ => X end = X) by (by destruct p).
      rewrite Heq.
      destruct (template _ (prop "name" p)) as [text|] eqn:Ht.
      * split; [intros _; exists p; by rewrite Ht|intros _].
        by destruct (dispatch _ _ _ _).
      * split; [by intros []|]. intros (p' & [= <-] & _ & Hs).
        rewrite Ht in Hs. by destruct Hs.
  - split; [by intros []|by intros (? & ? & ?)].
Qed.

(** C3.  Whatever the request and the state, an envelope that one of the
    three handlers writes (initialize, tools/list, tools/call on success
    and on failure) has exactly one of [result] and [error]. *)
Theorem reply_exactly_one_of_result_error
    (r : request) (s : MCPServerProtocol) (reply : http_reply) :
  (handle JSON_stringify axios r s).2 = Some reply →
  exactly_one_of_result_error (body reply).
Proof.
  unfold exactly_one_of_result_error.
  destruct r as [sid now rq|rq|rq]; simpl.
  - intros [= <-]. left. simpl. eauto.
  - intros [= <-]. left. simpl. eauto.
  - unfold tools_call. destruct (rq_params rq) as [p|]; [|done].
    destruct p; try done;
      (destruct (template _ _); [|done];
       destruct (dispatch _ _ _ _); intros [= <-]; simpl; [left|right]; eauto).
Qed.

(** C6.  In every state reached from construction the tools/list handler
    replies with the registry as it is at that moment: the three
    descriptors, whose names are the names the call handler routes, each
    once.  The reply is a value written at the time of the call; the
    handler leaves the server as it is, and every later state lists the
    same descriptors. *)
Theorem tools_list_snapshot (s : MCPServerProtocol) (rq : MCPRequest) :
  reachable s →
  ∃ ts,
    tools_list rq s
      = {| status := 200;
           body := {| rs_id := rq_id rq;
                      result := Some (RToolList ts);
                      error := None |} |}
    ∧ ts = tools s
    ∧ name <$> ts = registered_names
    ∧ NoDup (name <$> ts)
    ∧ (∀ n, n ∈ (name <$> ts) ↔ is_Some (handler_of axios n))
    ∧ (handle JSON_stringify axios (PostToolsList rq) s).1 = s
    ∧ (∀ s' rq', rtc step s s' →
         result (body (tools_list rq' s')) = Some (RToolList ts)).
Proof.
  intros Hs. exists (tools s).
  pose proof (reachable_tools s Hs) as Ht.
  split_and!; try done.
  - by rewrite Ht.
  - rewrite Ht. apply NoDup_registered_names.
  - intros n. rewrite handler_of_registered. by rewrite Ht.
  - intros s' rq' Hs'. simpl. by rewrite (step_tools s s' Hs').
Qed.

(** C7.  When the request names a tool the switch has a case for and the
    implementation resolves with [r], the reply has status 200, echoes
    the id of the request and carries, as its result, one content block
    of type text whose text is [JSON.stringify(r)], and no error. *)
Theorem tools_call_wraps_result
    (rq : MCPRequest) (params : Json) (n : string)
    (h : any → outcome) (r : Json) :
  rq_params rq = Some params →
  prop "name" params = Some (JStr n) →
  handler_of axios n = Some h →
  h (prop "arguments" params) = Resolved r →
  tools_call JSON_stringify axios rq
  = Some {| status := 200;
            body := {| rs_id := rq_id rq;
                       result := Some (RContent
                         [{| cb_type := "text"; cb_text := JSON_stringify r |}]);
                       error := None |} |}.
Proof.
  intros Hp Hn Hh Hr.
  by rewrite (tools_call_string_name rq params n Hp Hn), dispatch_handler_of, Hh, Hr.
Qed.

(** C10.  On a server reached from construction the initialize handler
    replies to every request, whatever its params and whether or not a
    session id header came with it, with status 200 and a result envelope
    that echoes the id and carries the three registered descriptors,
    version 2024-11-05 and the flags streaming false, cancellation true,
    progress true; it has no error.  The session is recorded under the
    header value and the registry is left as it is. *)
Theorem initialize_always_capabilities
    (sid : option string) (now : string) (rq : MCPRequest)
    (s : MCPServerProtocol) :
  reachable s →
  (handle JSON_stringify axios (PostInitialize sid now rq) s).2
  = Some {| status := 200;
            body := {| rs_id := rq_id rq;
                       result := Some (RCapabilities
                         {| cap_tools := [add_reminder_tool;
                                          send_email_reminder_tool;
                                          list_reminders_tool];
                            version := "2024-11-05";
                            features := {| streaming := Some false;
                                           cancellation := Some true;
                                           progress := Some true |} |});
                       error := None |} |}
  ∧ tools (handle JSON_stringify axios (PostInitialize sid now rq) s).1
    = tools s
  ∧ activeSessions (handle JSON_stringify axios (PostInitialize sid now rq) s).1
      !! sid
    = Some {| clientInfo := rq_params rq ≫= prop "clientInfo";
              connectedAt := now |}.
Proof.
  intros Hs. pose proof (reachable_tools s Hs) as Ht. simpl in *.
  split_and!; [by rewrite Ht | done | by rewrite lookup_insert_eq].
Qed.

End ServerFacts.

Lemma reply_exactly_one_of_result_error_witness :
  ∃ reply,
    (Server.handle ToString Samples.axios_down
       (Server.PostToolsCall
          (Client.callTool_request "add_reminder"
             (Some Samples.add_reminder_args) 1700000000000))
       Server.construct).2 = Some reply
    ∧ exactly_one_of_result_error (body reply).
Proof.
  eexists. split; [reflexivity|].
  eapply (reply_exactly_one_of_result_error ToString Samples.axios_down
            (Server.PostToolsCall
               (Client.callTool_request "add_reminder"
                  (Some Samples.add_reminder_args) 1700000000000))
            Server.construct).
  reflexivity.
Defined.

Lemma tools_list_snapshot_witness :
  Server.reachable Server.construct
  ∧ ∃ ts, name <$> ts = Server.registered_names
          ∧ result (body (Server.tools_list
                            {| rq_id := IdNum 2; rq_method := "tools/list";
                               rq_params := undefined |} Server.construct))
            = Some (RToolList ts).
Proof.
  assert (Hr : Server.reachable Server.construct) by apply rtc_refl.
  split; [exact Hr|].
  destruct (tools_list_snapshot ToString Samples.axios_up Server.construct
              {| rq_id := IdNum 2; rq_method := "tools/list";
                 rq_params := undefined |} Hr)
    as (ts & Heq & _ & Hn & _).
  exists ts. split; [exact Hn|]. by rewrite Heq.
Defined.

Lemma tools_call_wraps_result_witness :
  Server.tools_call ToString Samples.axios_up
    (Client.callTool_request "add_reminder" (Some Samples.add_reminder_args) 1700000000000)
  = Some {| status := 200;
            body := {| rs_id := IdNum 1700000000000;
                       result := Some (RContent
                         [{| cb_type := "text"; cb_text := "[object Object]" |}]);
                       error := None |} |}.
Proof.
  apply (tools_call_wraps_result ToString Samples.axios_up
           (Client.callTool_request "add_reminder" (Some Samples.add_reminder_args)
              1700000000000)
           (JObj [("name", JStr "add_reminder");
                  ("arguments", Samples.add_reminder_args)])
           "add_reminder"
           (Server.executeAddReminder Samples.axios_up)
           (JObj [("success", JBool true)]));
    reflexivity.
Defined.

Lemma initialize_always_capabilities_witness :
  Server.reachable Server.construct
  ∧ is_Some (Server.handle ToString Samples.axios_up
               (Server.PostInitialize None "2025-01-01T00:00:00.000Z"
                  {| rq_id := IdStr "abc"; rq_method := "initialize";
                     rq_params := undefined |})
               Server.construct).2.
Proof.
  assert (Hr : Server.reachable Server.construct) by apply rtc_refl.
  split; [exact Hr|].
  destruct (initialize_always_capabilities ToString Samples.axios_up None
              "2025-01-01T00:00:00.000Z"
              {| rq_id := IdStr "abc"; rq_method := "initialize";
                 rq_params := undefined |} Server.construct Hr) as (Heq & _).
  rewrite Heq. by eexists.
Defined.

(** ** The protocol client *)

Section ClientFacts.
Import Client.
Variable fetch : fetch_call → fetch_outcome.

(** [sendMCPRequest] issues exactly one [fetch], leaves the object as it
    is, and completes by the outcome of that call. *)
Lemma sendMCPRequest_unfold (endpoint : string) (rq : MCPRequest) (w : world) :
  sendMCPRequest fetch endpoint rq w
  = (match fetch (call_of (this w) endpoint rq) with
     | FetchFailed e => Throw e
     | Fetched r =>
         if ok r then
           match r_json r with
           | ParseFailed e => Throw e
           | Parsed m =>
               match error m with
               | Some e =>
                   Throw (ErrorObj ("MCP Error " +:+ pretty (code e)
                                    +:+ ": " +:+ message e))
               | None => Return m
               end
           end
         else
           Throw (ErrorObj ("MCP request failed: " +:+ pretty (r_status r)
                            +:+ " " +:+ r_statusText r))
     end,
     {| this := this w;
        wire := wire w ++ [call_of (this w) endpoint rq] |}).
Proof.
  unfold sendMCPRequest, bind, get_this, await_fetch, call_of. simpl.
  destruct (fetch _) as [r|e]; [|done].
  destruct (ok r); simpl; [|done].
  unfold await_json, bind. destruct (r_json r) as [m|e]; [|done].
  simpl. by destruct (error m).
Qed.

Lemma sendMCPRequest_throws (endpoint : string) (rq : MCPRequest)
    (w : world) (e : thrown) :
  (sendMCPRequest fetch endpoint rq w).1 = Throw e
  ↔ request_fails (fetch (call_of (this w) endpoint rq)) e.
Proof.
  rewrite sendMCPRequest_unfold. simpl. split.
  - destruct (fetch _) as [r|e'] eqn:Hf.
    + destruct (ok r) eqn:Hok.
      * destruct (r_json r) as [m|e'] eqn:Hj.
        -- destruct (error m) as [e'|] eqn:He; [|done].
           intros [= <-]. by eapply fails_envelope.
        -- intros [= <-]. by eapply fails_json.
      * intros [= <-]. by apply fails_status.
    + intros [= <-]. constructor.
  - intros Hfail. inversion Hfail as [e'|r Hok|r e' Hok Hj|r m e' Hok Hj He];
      subst; try rewrite Hok; try rewrite Hj; try rewrite He; done.
Qed.

(** [discoverTools] on an object whose [capabilities] is [null] throws at
    once: the object and the network log are as before. *)
Lemma discoverTools_not_initialized (url sid : string) (log : list fetch_call) :
  let w := {| this := {| serverUrl := url; sessionId := sid;
                         capabilities := None |};
              wire := log |} in
  discoverTools fetch w
  = (Throw (ErrorObj "MCP not initialized. Call initialize() first."), w).
Proof. done. Qed.

Lemma callTool_unfold (toolName : string) (parameters : any) (now : Z) (w : world) :
  callTool fetch toolName parameters now w
  = let r := sendMCPRequest fetch "/mcp/tools/call"
               (callTool_request toolName parameters now) w in
    (match r.1 with
     | Return m => Return (result m)
     | Throw e => Throw e
     end, r.2).
Proof.
  unfold callTool, try_catch, bind.
  by destruct (sendMCPRequest _ _ _ _) as [[m|e] w'].
Qed.

(** C2 (the code against the claim).  On an object whose [capabilities]
    is [null], [discoverTools] throws the not-initialized error and
    issues no request, but [callTool] has no such guard: it issues its
    request to /mcp/tools/call and completes by the outcome of it. *)
Theorem callTool_before_initialize_sends
    (url sid : string) (log : list fetch_call)
    (toolName : string) (parameters : any) (now : Z) :
  let c := {| serverUrl := url; sessionId := sid; capabilities := None |} in
  let w := {| this := c; wire := log |} in
  discoverTools fetch w
    = (Throw (ErrorObj "MCP not initialized. Call initialize() first."), w)
  ∧ callTool fetch toolName parameters now w
    = (match (sendMCPRequest fetch "/mcp/tools/call"
                (callTool_request toolName parameters now) w).1 with
       | Return m => Return (result m)
       | Throw e => Throw e
       end,
       {| this := c;
          wire := log ++ [call_of c "/mcp/tools/call"
                            (callTool_request toolName parameters now)] |}).
Proof.
  intros c w. split; [done|].
  by rewrite callTool_unfold, sendMCPRequest_unfold.
Qed.

(** C4 (amended).  When the request of [initialize()] fails, by the
    transport or by an error envelope, [initialize()] throws an [Error]
    with the fixed message "Failed to establish MCP connection", whatever
    the cause was; the object, and with it [capabilities], is as before
    the call, and one request went out. *)
Theorem initialize_failure_wrapped (w : world) (cause : thrown) :
  request_fails (fetch (call_of (this w) "/mcp/initialize" initialize_request))
    cause →
  initialize fetch w
  = (Throw (ErrorObj "Failed to establish MCP connection"),
     {| this := this w;
        wire := wire w ++ [call_of (this w) "/mcp/initialize" initialize_request] |}).
Proof.
  intros Hfail. apply sendMCPRequest_throws in Hfail.
  unfold initialize, try_catch, bind.
  rewrite sendMCPRequest_unfold in *. simpl in *. by rewrite Hfail.
Qed.

(** C5 (amended).  The id of the envelope [callTool] builds and sends is
    the reading of [Date.now()] taken in the call.  Two calls on one
    client send envelopes whose ids differ exactly when the two readings
    differ. *)
Theorem callTool_id_is_clock_reading
    (toolName1 : string) (parameters1 : any) (now1 : Z)
    (toolName2 : string) (parameters2 : any) (now2 : Z) (w : world) :
  let rq1 := callTool_request toolName1 parameters1 now1 in
  let rq2 := callTool_request toolName2 parameters2 now2 in
  let w1 := (callTool fetch toolName1 parameters1 now1 w).2 in
  let w2 := (callTool fetch toolName2 parameters2 now2 w1).2 in
  wire w2 = wire w ++ [call_of (this w) "/mcp/tools/call" rq1;
                        call_of (this w) "/mcp/tools/call" rq2]
  ∧ rq_id rq1 = IdNum now1
  ∧ rq_id rq2 = IdNum now2
  ∧ (callTool_ids_differ toolName1 parameters1 now1 toolName2 parameters2 now2
     ↔ now1 ≠ now2).
Proof.
  intros rq1 rq2 w1 w2. subst w1 w2.
  rewrite !callTool_unfold, !sendMCPRequest_unfold. simpl.
  split_and!; [by rewrite <- app_assoc | done | done |].
  unfold callTool_ids_differ. simpl. split; intros H ?; apply H; congruence.
Qed.

End ClientFacts.

(** ** Client and server together *)

Section EndToEnd.
Variable JSON_stringify : Json → string.
Variable axios : Server.http_method → string → any → Server.outcome.

Lemma callTool_request_fields (toolName : string) (parameters : any) (now : Z) :
  ∃ params,
    rq_params (Client.callTool_request toolName parameters now) = Some params
    ∧ params ≠ JNull
    ∧ prop "name" params = Some (JStr toolName)
    ∧ prop "arguments" params = parameters.
Proof.
  eexists. split; [reflexivity|].
  destruct parameters as [p|]; simpl; repeat case_decide; done.
Qed.

(** Every error envelope of the call handler has status 500 and the one
    code -32603, whether the name was unknown or the tool failed. *)
Lemma tools_call_error_code (rq : MCPRequest) (reply : http_reply) (e : rpc_error) :
  Server.tools_call JSON_stringify axios rq = Some reply →
  error (body reply) = Some e →
  code e = Server.internal_error_code ∧ status reply = 500%Z.
Proof.
  unfold Server.tools_call. destruct (rq_params rq) as [p|]; [|done].
  destruct p; try done;
    (destruct (template _ _); [|done];
     destruct (Server.dispatch _ _ _ _); intros [= <-]; simpl; [done|];
     by intros [= <-]).
Qed.

Lemma tools_call_unknown (rq : MCPRequest) (params : Json) (n : string) :
  rq_params rq = Some params →
  prop "name" params = Some (JStr n) →
  n ∉ Server.registered_names →
  Server.tools_call JSON_stringify axios rq
  = Some {| status := 500;
            body := {| rs_id := rq_id rq;
                       result := None;
                       error := Some {| code := (-32603)%Z;
                                        message := "Unknown tool: " +:+ n;
                                        data := undefined |} |} |}.
Proof.
  intros Hp Hname Hn.
  rewrite (tools_call_string_name JSON_stringify axios rq params n Hp Hname).
  rewrite dispatch_handler_of.
  destruct (handler_of axios n) as [h|] eqn:Hh; [|done].
  exfalso. apply Hn. apply (handler_of_registered axios). by rewrite Hh.
Qed.

Lemma tools_call_rejected (rq : MCPRequest) (params : Json) (n : string)
    (h : any → Server.outcome) (e : thrown) :
  rq_params rq = Some params →
  prop "name" params = Some (JStr n) →
  handler_of axios n = Some h →
  h (prop "arguments" params) = Server.Rejected e →
  Server.tools_call JSON_stringify axios rq
  = Some {| status := 500;
            body := {| rs_id := rq_id rq;
                       result := None;
                       error := Some
                         {| code := (-32603)%Z;
                            message := match e with
                                       | ErrorObj m => m
                                       | NonError => "Tool execution failed"
                                       end;
                            data := undefined |} |} |}.
Proof.
  intros Hp Hn Hh Hr.
  by rewrite (tools_call_string_name JSON_stringify axios rq params n Hp Hn),
       dispatch_handler_of, Hh, Hr.
Qed.

(** C1 (amended).  To every tools/call request whose [params.name] is a
    string that is not the name of a registered tool, whatever else the
    request holds, the call handler replies with status 500 and an error
    envelope that echoes the id of the request, has no result, and
    carries the code -32603 with the message "Unknown tool: " followed by
    the name.  There is no code of its own for an unknown tool: -32603 is
    the code of every error envelope of that handler, and it is the code
    of the envelope written when the implementation of a registered tool
    rejects; the two cases differ in the message only. *)
Theorem unknown_tool_is_internal_error
    (rq : MCPRequest) (params : Json) (n : string) :
  rq_params rq = Some params →
  prop "name" params = Some (JStr n) →
  n ∉ Server.registered_names →
  Server.tools_call JSON_stringify axios rq
  = Some {| status := 500;
            body := {| rs_id := rq_id rq;
                       result := None;
                       error := Some {| code := (-32603)%Z;
                                        message := "Unknown tool: " +:+ n;
                                        data := undefined |} |} |}
  ∧ (∀ rq' reply e,
       Server.tools_call JSON_stringify axios rq' = Some reply →
       error (body reply) = Some e →
       code e = (-32603)%Z ∧ status reply = 500%Z)
  ∧ (∀ rq' params' n' h e,
       rq_params rq' = Some params' →
       prop "name" params' = Some (JStr n') →
       handler_of axios n' = Some h →
       h (prop "arguments" params') = Server.Rejected e →
       ∃ reply err,
         Server.tools_call JSON_stringify axios rq' = Some reply
         ∧ status reply = 500%Z
         ∧ error (body reply) = Some err
         ∧ code err = (-32603)%Z).
Proof.
  intros Hp Hname Hn.
  split_and!; [by apply (tools_call_unknown rq params n) | apply tools_call_error_code |].
  intros rq' params' n' h e Hp' Hn' Hh Hr.
  eexists _, _. split; [by apply (tools_call_rejected rq' params' n' h e)|]. done.
Qed.

End EndToEnd.

Lemma unknown_tool_is_internal_error_witness :
  ("missing" ∉ Server.registered_names)
  ∧ Server.tools_call ToString Samples.axios_up
      (Client.callTool_request "missing" (Some (JObj [])) 1700000000000)
    = Some {| status := 500;
              body := {| rs_id := IdNum 1700000000000;
                         result := None;
                         error := Some {| code := (-32603)%Z;
                                          message := "Unknown tool: missing";
                                          data := undefined |} |} |}.
Proof.
  assert (Hn : "missing" ∉ Server.registered_names) by compute_done.
  split; [exact Hn|].
  exact (proj1 (unknown_tool_is_internal_error ToString Samples.axios_up
                  (Client.callTool_request "missing" (Some (JObj [])) 1700000000000)
                  (JObj [("name", JStr "missing"); ("arguments", JObj [])])
                  "missing" eq_refl eq_refl Hn)).
Defined.

(** C1 fails as worded: the envelope the server writes for the unknown tool
    "missing" carries the code of a tool failure, -32603, and no code of
    its own. *)
Lemma unknown_tool_not_told_apart :
  ¬ unknown_tool_told_apart ToString Samples.axios_up Server.construct
      "2025-01-01T00:00:00.000Z" "missing" (Some (JObj [])) 1700000000000 Samples.w0.
Proof.
  intros [_ Hcode].
  eapply Hcode; [reflexivity | reflexivity | reflexivity].
Qed.

Example unknown_tool_same_code_as_failure :
  Server.tools_call ToString Samples.axios_up
    (Client.callTool_request "missing" (Some (JObj [])) 1)
  = Some {| status := 500;
            body := {| rs_id := IdNum 1; result := None;
                       error := Some {| code := (-32603)%Z;
                                        message := "Unknown tool: missing";
                                        data := undefined |} |} |}
  ∧ Server.tools_call ToString Samples.axios_down
      (Client.callTool_request "add_reminder" (Some Samples.add_reminder_args) 2)
    = Some {| status := 500;
              body := {| rs_id := IdNum 2; result := None;
                         error := Some {| code := (-32603)%Z;
                                          message := "connect ECONNREFUSED 127.0.0.1:3000";
                                          data := undefined |} |} |}.
Proof. split; reflexivity. Qed.

(** C2 at work: a fresh client, never initialised, calls a tool and gets
    the tool's result from the server. *)
Example callTool_before_initialize_succeeds :
  Client.capabilities Samples.client0 = None
  ∧ Client.callTool
      (fetch_from ToString Samples.axios_up Server.construct "2025-01-01T00:00:00.000Z")
      "add_reminder" (Some Samples.add_reminder_args) 1700000000000 Samples.w0
    = (Client.Return (Some (RContent [{| cb_type := "text";
                                          cb_text := "[object Object]" |}])),
       {| Client.this := Samples.client0;
          Client.wire := [call_of Samples.client0 "/mcp/tools/call"
                            (Client.callTool_request "add_reminder"
                               (Some Samples.add_reminder_args) 1700000000000)] |}).
Proof. split; reflexivity. Qed.

Lemma initialize_failure_wrapped_witness :
  Client.initialize Samples.fetch_refusing Samples.w0
  = (Client.Throw (ErrorObj "Failed to establish MCP connection"),
     {| Client.this := Samples.client0;
        Client.wire := [call_of Samples.client0 "/mcp/initialize"
                          Client.initialize_request] |}).
Proof.
  apply (initialize_failure_wrapped Samples.fetch_refusing Samples.w0
           (ErrorObj "MCP Error -32000: Server not ready")).
  eapply (fails_envelope _ _ {| code := (-32000)%Z; message := "Server not ready";
                                data := undefined |}); reflexivity.
Defined.

(** C4 fails as worded: with no route to the server the request fails with
    "fetch failed", and the error [initialize()] raises does not have that
    text. *)
Lemma initialize_failure_drops_cause :
  ¬ initialize_failure_keeps_cause Samples.fetch_down Samples.w0.
Proof.
  intros H. destruct (H "fetch failed") as (raised & Hr & Ho & _).
  - apply fails_fetch.
  - vm_compute in Hr. injection Hr as <-.
    unfold occurs_in in Ho. vm_compute in Ho. by destruct Ho.
Qed.

(** [sendMCPRequest] itself does put the text of an error envelope into the
    error it throws; it is the [catch] of [initialize()] that replaces it. *)
Example sendMCPRequest_keeps_cause :
  (Client.sendMCPRequest Samples.fetch_refusing "/mcp/initialize"
     Client.initialize_request Samples.w0).1
  = Client.Throw (ErrorObj "MCP Error -32000: Server not ready")
  ∧ occurs_in "Server not ready" "MCP Error -32000: Server not ready"
  ∧ (Client.initialize Samples.fetch_refusing Samples.w0).1
    = Client.Throw (ErrorObj "Failed to establish MCP connection").
Proof. split_and!; [reflexivity | by eexists; vm_compute | reflexivity]. Qed.

(** A handshake reply that is a result without [tools]: [initialize()]
    throws the same error, after it has stored the result. *)
Example initialize_odd_result :
  (Client.initialize Samples.fetch_odd Samples.w0).1
  = Client.Throw (ErrorObj "Failed to establish MCP connection")
  ∧ Client.capabilities (Client.this (Client.initialize Samples.fetch_odd Samples.w0).2)
    = Some (ROther (JObj [])).
Proof. split; reflexivity. Qed.

(** C5 fails as worded: two calls in the same millisecond send the same
    id. *)
Lemma callTool_ids_collide :
  ¬ callTool_ids_differ
      "add_reminder" (Some Samples.add_reminder_args) 1700000000000
      "list_reminders" (Some (JObj [])) 1700000000000.
Proof. intros H. by apply H. Qed.

(** * Further properties *)

(** ** The execution tracker under any use *)

Section TrackerUse.
Import Tracker.

Lemma find_same_ids (i : string) (l l' : list ExecutionStep) k x :
  id <$> l' = id <$> l →
  list_find (λ s, id s = i) l = Some (k, x) →
  ∃ x', list_find (λ s, id s = i) l' = Some (k, x') ∧ id x' = i.
Proof.
  intros Hids (Hk & Hx & Hmin)%list_find_Some.
  assert (Hk' : (id <$> l') !! k = Some (id x))
    by (by rewrite Hids, list_lookup_fmap, Hk).
  apply list_lookup_fmap_Some in Hk' as (x' & Hx' & Hk').
  exists x'. split; [|congruence].
  apply list_find_Some. split_and!; [done | congruence |].
  intros j y Hj Hlt Hy.
  assert (Hj' : (id <$> l) !! j = Some (id y))
    by (by rewrite <- Hids, list_lookup_fmap, Hj).
  apply list_lookup_fmap_Some in Hj' as (y' & Hy' & Hj').
  apply (Hmin j y' Hj' Hlt). congruence.
Qed.

Lemma find_none_same_ids (i : string) (l l' : list ExecutionStep) :
  id <$> l' = id <$> l →
  list_find (λ s, id s = i) l = None →
  list_find (λ s, id s = i) l' = None.
Proof.
  intros Hids Hn.
  destruct (list_find (λ s, id s = i) l') as [[k x]|] eqn:E; [|done].
  destruct (find_same_ids i l' l k x (eq_sym Hids) E) as (? & ? & _). congruence.
Qed.

Lemma updateStepDuration_ids (i : string) (d : Z) (t : ExecutionTracker) :
  id <$> steps (updateStepDuration i d t) = id <$> steps t.
Proof.
  unfold updateStepDuration.
  destruct (list_find _ _) as [[k s]|] eqn:E; [|done]. simpl.
  apply list_find_Some in E as (Hk & _ & _).
  rewrite list_fmap_insert. simpl. apply list_insert_id.
  by rewrite list_lookup_fmap, Hk.
Qed.

Lemma updateStepDuration_counter (i : string) (d : Z) (t : ExecutionTracker) :
  stepCounter (updateStepDuration i d t) = stepCounter t.
Proof. unfold updateStepDuration. by destruct (list_find _ _) as [[??]|]. Qed.

Lemma apply_op_numbered (t : ExecutionTracker) (o : op) :
  numbered t → numbered (apply_op t o).
Proof.
  unfold numbered. intros Hn.
  destruct o as [a|i d|]; cbn [apply_op addStep fst steps stepCounter clear].
  - rewrite fmap_app, Hn, seq_S, fmap_app. done.
  - by rewrite updateStepDuration_ids, updateStepDuration_counter.
  - done.
Qed.

Lemma apply_ops_numbered (os : list op) (t : ExecutionTracker) :
  numbered t → numbered (apply_ops os t).
Proof.
  revert t. induction os as [|o os IH]; intros t Hn; [done|].
  apply IH. by apply apply_op_numbered.
Qed.

Lemma numbered_fresh (t : ExecutionTracker) :
  numbered t → list_find (λ s, id s = step_id (S (stepCounter t))) (steps t) = None.
Proof.
  intros Hn. apply list_find_None, Forall_forall. intros s Hs Hid.
  assert (Hin : id s ∈ id <$> steps t) by (by apply list_elem_of_fmap_2).
  rewrite Hn, Hid in Hin.
  apply list_elem_of_fmap in Hin as (k & Hk & Hin).
  apply step_id_inj in Hk. subst k. apply elem_of_seq in Hin. lia.
Qed.

(** X1.  However a tracker is used from [new] on, its steps carry the ids
    step-1 .. step-n in order -- the step at place [k], counting from 0,
    has the id "step-" followed by [k+1] in decimal -- [n] being the
    counter and the number of steps; so no id occurs twice. *)
Theorem tracker_ids_numbered (os : list op) :
  let t := apply_ops os new in
  id <$> steps t = (λ k, "step-" +:+ pretty k) <$> seq 1 (stepCounter t)
  ∧ (∀ k s, steps t !! k = Some s → id s = "step-" +:+ pretty (S k))
  ∧ length (steps t) = stepCounter t
  ∧ NoDup (id <$> steps t).
Proof.
  intros t. assert (Hn : numbered t) by (by apply apply_ops_numbered).
  split_and!; [done | | |].
  - intros k s Hk.
    assert (Hk' : (id <$> steps t) !! k = Some (id s))
      by (by rewrite list_lookup_fmap, Hk).
    rewrite Hn in Hk'. apply list_lookup_fmap_Some in Hk' as (x & Hx & Hk').
    apply lookup_seq in Hk' as [-> _]. done.
  - rewrite <- (length_fmap id), Hn, length_fmap. apply length_seq.
  - rewrite Hn. apply (NoDup_fmap_2 _), NoDup_seq.
Qed.

Lemma usd_fresh_step (a : addStep_args) (d : Z) (t : ExecutionTracker) :
  numbered t →
  updateStepDuration (step_id (S (stepCounter t))) d (addStep a t).1
  = {| steps := steps t ++ [set_duration d (mk_step (S (stepCounter t)) a)];
       stepCounter := S (stepCounter t) |}.
Proof.
  intros Hn. cbn [addStep fst]. unfold updateStepDuration. cbn [steps stepCounter].
  pose proof (numbered_fresh t Hn) as Hfresh.
  rewrite (list_find_app_r _ _ _ Hfresh). simpl.
  case_decide; [|done]. simpl. f_equal.
  replace (length (steps t)) with (length (steps t) + 0) at 1 by lia.
  by rewrite insert_app_r.
Qed.

(** X2.  On a tracker used in any way from [new] on, the id that
    [addStep] returns selects the step just added: [updateStepDuration]
    with it sets the duration of that step and leaves every earlier step
    as it was. *)
Theorem addStep_then_updateStepDuration
    (os : list op) (a : addStep_args) (d : Z) :
  let t := apply_ops os new in
  let '(t1, i) := addStep a t in
  steps (updateStepDuration i d t1)
  = steps t ++ [set_duration d (mk_step (S (stepCounter t)) a)].
Proof.
  intros t. assert (Hn : numbered t) by (by apply apply_ops_numbered).
  cbn [addStep]. fold (addStep a t).1.
  change (steps (updateStepDuration (step_id (S (stepCounter t))) d (addStep a t).1)
          = steps t ++ [set_duration d (mk_step (S (stepCounter t)) a)]).
  by rewrite usd_fresh_step.
Qed.

Lemma usd_found (i : string) (d : Z) (t : ExecutionTracker) k s :
  list_find (λ x, id x = i) (steps t) = Some (k, s) →
  updateStepDuration i d t
  = {| steps := <[k:=set_duration d s]> (steps t); stepCounter := stepCounter t |}.
Proof. intros E. unfold updateStepDuration. by rewrite E. Qed.

Lemma usd_none (i : string) (d : Z) (t : ExecutionTracker) :
  list_find (λ x, id x = i) (steps t) = None → updateStepDuration i d t = t.
Proof. intros E. unfold updateStepDuration. by rewrite E. Qed.

Lemma usd_same_index (i : string) (d : Z) (t : ExecutionTracker) k s :
  list_find (λ x, id x = i) (steps t) = Some (k, s) →
  list_find (λ x, id x = i) (steps (updateStepDuration i d t))
  = Some (k, set_duration d s).
Proof.
  intros E. rewrite (usd_found i d t k s E). cbn [steps].
  apply list_find_Some in E as (Hk & Hid & Hmin).
  apply list_find_Some. split_and!.
  - apply list_lookup_insert_eq. by eapply lookup_lt_Some.
  - done.
  - intros j y Hj Hlt. rewrite list_lookup_insert_ne in Hj by lia.
    by apply (Hmin j y).
Qed.

Lemma usd_overwrite (i : string) (d1 d2 : Z) (t : ExecutionTracker) :
  updateStepDuration i d2 (updateStepDuration i d1 t) = updateStepDuration i d2 t.
Proof.
  destruct (list_find (λ x, id x = i) (steps t)) as [[k s]|] eqn:E.
  - rewrite (usd_found i d2 _ k _ (usd_same_index i d1 t k s E)).
    rewrite (usd_found i d1 t k s E), (usd_found i d2 t k s E).
    cbn [steps stepCounter]. by rewrite list_insert_insert_eq.
  - by rewrite (usd_none i d1 t E).
Qed.

Lemma usd_commute (i j : string) (d e : Z) (t : ExecutionTracker) :
  i ≠ j →
  updateStepDuration i d (updateStepDuration j e t)
  = updateStepDuration j e (updateStepDuration i d t).
Proof.
  intros Hij.
  assert (Hfind : ∀ (i j : string) (e : Z) k s, i ≠ j →
            list_find (λ x, id x = i) (steps t) = Some (k, s) →
            list_find (λ x, id x = i) (steps (updateStepDuration j e t)) = Some (k, s)).
  { clear. intros i j e k s Hij E. unfold updateStepDuration.
    destruct (list_find (λ x, id x = j) (steps t)) as [[k' s']|] eqn:E'; [|done].
    cbn [steps]. apply list_find_Some in E as (Hk & Hid & Hmin).
    apply list_find_Some in E' as (Hk' & Hid' & _).
    assert (k ≠ k') by (intros ->; congruence).
    apply list_find_Some. split_and!; [by rewrite list_lookup_insert_ne | done |].
    intros m y Hm Hlt. destruct (decide (m = k')) as [->|Hne].
    - rewrite list_lookup_insert_eq in Hm by (by eapply lookup_lt_Some).
      injection Hm as <-. simpl. congruence.
    - rewrite list_lookup_insert_ne in Hm by done. by apply (Hmin m y). }
  destruct (list_find (λ x, id x = i) (steps t)) as [[k s]|] eqn:Ei;
    destruct (list_find (λ x, id x = j) (steps t)) as [[k' s']|] eqn:Ej.
  - rewrite (usd_found i d _ k s (Hfind i j e k s Hij Ei)).
    rewrite (usd_found j e _ k' s' (Hfind j i d k' s' (not_eq_sym Hij) Ej)).
    rewrite (usd_found i d t k s Ei), (usd_found j e t k' s' Ej).
    cbn [steps stepCounter]. f_equal. apply list_insert_insert_ne.
    apply list_find_Some in Ei as (Hk & Hid & _).
    apply list_find_Some in Ej as (Hk' & Hid' & _).
    intros ->. congruence.
  - rewrite (usd_none j e t Ej).
    apply eq_sym, usd_none.
    apply (find_none_same_ids j (steps t)); [apply updateStepDuration_ids | done].
  - rewrite (usd_none i d t Ei).
    apply usd_none.
    apply (find_none_same_ids i (steps t)); [apply updateStepDuration_ids | done].
  - by rewrite (usd_none j e t Ej), (usd_none i d t Ei), (usd_none j e t Ej).
Qed.

(** X3.  Two [updateStepDuration] calls with the same id: the later value
    stands, as if the earlier call had not been made, also when a call
    for another id comes in between. *)
Theorem updateStepDuration_overwrites
    (i j : string) (d1 d2 e : Z) (t : ExecutionTracker) :
  i ≠ j →
  updateStepDuration i d2 (updateStepDuration i d1 t) = updateStepDuration i d2 t
  ∧ updateStepDuration i d2 (updateStepDuration j e (updateStepDuration i d1 t))
    = updateStepDuration i d2 (updateStepDuration j e t).
Proof.
  intros Hij. split; [apply usd_overwrite|].
  rewrite (usd_commute j i e d1 t) by done.
  by rewrite usd_overwrite.
Qed.

(** X4.  [updateStepDuration] calls with different ids do not interfere:
    either order gives the same tracker, with the ids and the counter it
    had. *)
Theorem updateStepDuration_commute
    (i j : string) (d e : Z) (t : ExecutionTracker) :
  i ≠ j →
  updateStepDuration i d (updateStepDuration j e t)
  = updateStepDuration j e (updateStepDuration i d t)
  ∧ id <$> steps (updateStepDuration i d (updateStepDuration j e t)) = id <$> steps t
  ∧ stepCounter (updateStepDuration i d (updateStepDuration j e t)) = stepCounter t.
Proof.
  intros Hij. split_and!.
  - by apply usd_commute.
  - by rewrite !updateStepDuration_ids.
  - by rewrite !updateStepDuration_counter.
Qed.

End TrackerUse.

Lemma tracker_ids_numbered_witness :
  Tracker.id <$> Tracker.steps
    (Tracker.apply_ops
       [Tracker.OpAddStep (Samples.demo_call "a");
        Tracker.OpAddStep (Samples.demo_call "b");
        Tracker.OpUpdateStepDuration "step-1" 5;
        Tracker.OpClear;
        Tracker.OpAddStep (Samples.demo_call "c");
        Tracker.OpUpdateStepDuration "step-9" 5;
        Tracker.OpAddStep (Samples.demo_call "d");
        Tracker.OpAddStep (Samples.demo_call "e")] Tracker.new)
  = ["step-1"; "step-2"; "step-3"].
Proof.
  exact (proj1 (tracker_ids_numbered
                  [Tracker.OpAddStep (Samples.demo_call "a");
                   Tracker.OpAddStep (Samples.demo_call "b");
                   Tracker.OpUpdateStepDuration "step-1" 5;
                   Tracker.OpClear;
                   Tracker.OpAddStep (Samples.demo_call "c");
                   Tracker.OpUpdateStepDuration "step-9" 5;
                   Tracker.OpAddStep (Samples.demo_call "d");
                   Tracker.OpAddStep (Samples.demo_call "e")])).
Defined.

Lemma updateStepDuration_overwrites_witness :
  "step-2" ≠ "step-3"
  ∧ Tracker.duration <$>
      Tracker.steps (Tracker.updateStepDuration "step-2" 7
        (Tracker.updateStepDuration "step-3" 9
           (Tracker.updateStepDuration "step-2" 5 Samples.demo_tracker)))
    = [None; Some 7%Z; Some 9%Z].
Proof.
  assert (H : "step-2" ≠ "step-3") by done.
  split; [exact H|].
  destruct (updateStepDuration_overwrites "step-2" "step-3" 5 7 9
              Samples.demo_tracker H) as [_ ->].
  reflexivity.
Defined.

Lemma updateStepDuration_commute_witness :
  "step-1" ≠ "step-3"
  ∧ Tracker.updateStepDuration "step-1" 5
      (Tracker.updateStepDuration "step-3" 9 Samples.demo_tracker)
    = Tracker.updateStepDuration "step-3" 9
        (Tracker.updateStepDuration "step-1" 5 Samples.demo_tracker).
Proof.
  assert (H : "step-1" ≠ "step-3") by done.
  split; [exact H|].
  exact (proj1 (updateStepDuration_commute "step-1" "step-3" 5 9
                  Samples.demo_tracker H)).
Defined.

(** ** The tracker's arrays and objects *)

Section TrackerStoreFacts.
Import TrackerStore.

Lemma view_find (objs : list Tracker.ExecutionStep) (arr : list nat) (i : string) :
  Forall (λ l, l < length objs) arr →
  match list_find (λ l, Tracker.id <$> objs !! l = Some i) arr with
  | Some (k, l) =>
      ∃ o, objs !! l = Some o ∧ arr !! k = Some l
           ∧ list_find (λ s, Tracker.id s = i) (omap (λ l, objs !! l) arr) = Some (k, o)
  | None => list_find (λ s, Tracker.id s = i) (omap (λ l, objs !! l) arr) = None
  end.
Proof.
  induction arr as [|l arr IH]; intros Hv; [done|].
  apply Forall_cons in Hv as [Hl Hv]. specialize (IH Hv).
  destruct (lookup_lt_is_Some_2 objs l Hl) as [o Ho].
  cbn [list_find omap list_omap]. rewrite Ho. simpl.
  repeat case_decide; simplify_eq/=.
  - by exists o.
  - destruct (list_find _ arr) as [[k l']|]; simpl.
    + destruct IH as (o' & Ho' & Hk & ->). by exists o'.
    + by rewrite IH.
Qed.

Lemma view_alter_notin (objs : list Tracker.ExecutionStep) (arr : list nat) f l :
  l ∉ arr →
  omap (λ x, alter f l objs !! x) arr = omap (λ l, objs !! l) arr.
Proof.
  intros Hl. apply list_omap_ext, Forall2_same_length_lookup_2; [done|].
  intros k x y Hx Hy. simplify_eq.
  apply list_lookup_alter_ne. intros Heq. subst. apply Hl.
  by eapply list_elem_of_lookup_2.
Qed.

Lemma view_alter (objs : list Tracker.ExecutionStep) (arr : list nat) f l k :
  NoDup arr → Forall (λ l, l < length objs) arr → arr !! k = Some l →
  omap (λ x, alter f l objs !! x) arr = alter f k (omap (λ l, objs !! l) arr).
Proof.
  revert k. induction arr as [|x arr IH]; intros k Hnd Hv Hk; [done|].
  apply NoDup_cons in Hnd as [Hx Hnd]. apply Forall_cons in Hv as [Hlx Hv].
  destruct (lookup_lt_is_Some_2 objs x Hlx) as [o Ho].
  destruct k as [|k]; simpl in Hk.
  - injection Hk as ->. cbn [omap list_omap].
    rewrite list_lookup_alter_eq, Ho. simpl. f_equal.
    by apply view_alter_notin.
  - cbn [omap list_omap].
    assert (l ≠ x) by (intros ->; apply Hx; by eapply list_elem_of_lookup_2).
    rewrite list_lookup_alter_ne by done. rewrite Ho. simpl. f_equal.
    by apply IH.
Qed.

Lemma view_app_objects (objs more : list Tracker.ExecutionStep) (arr : list nat) :
  Forall (λ l, l < length objs) arr →
  omap (λ l, (objs ++ more) !! l) arr = omap (λ l, objs !! l) arr.
Proof.
  intros Hv. apply list_omap_ext, Forall2_same_length_lookup_2; [done|].
  intros k x y Hx Hy. simplify_eq.
  apply lookup_app_l. rewrite Forall_forall in Hv. apply Hv.
  by eapply list_elem_of_lookup_2.
Qed.

Lemma apply_op_sound (t : ExecutionTracker) (o : Tracker.op) :
  sound t → sound (apply_op t o).
Proof.
  intros [Hnd Hv]. destruct o as [a|i d|]; simpl.
  - split; simpl.
    + apply NoDup_app. split_and!; [done | | apply NoDup_singleton].
      intros x Hx ->%list_elem_of_singleton.
      rewrite Forall_forall in Hv. specialize (Hv _ Hx). lia.
    + rewrite length_app. simpl. apply Forall_app. split.
      * eapply Forall_impl; [done|]. simpl. lia.
      * apply Forall_singleton. lia.
  - unfold updateStepDuration. destruct (list_find _ _) as [[k l]|]; [|done].
    split; simpl; [done|]. by rewrite length_alter.
  - split; simpl; [apply NoDup_nil_2 | done].
Qed.

Lemma apply_op_contents (t : ExecutionTracker) (o : Tracker.op) :
  sound t → contents (apply_op t o) = Tracker.apply_op (contents t) o.
Proof.
  intros [Hnd Hv]. destruct o as [a|i d|]; simpl.
  - unfold contents, view. simpl. f_equal.
    rewrite omap_app. simpl. rewrite lookup_app_r by done.
    rewrite Nat.sub_diag. simpl. f_equal. by apply view_app_objects.
  - unfold updateStepDuration, Tracker.updateStepDuration, contents, view.
    cbn [Tracker.steps Tracker.stepCounter].
    pose proof (view_find (objects t) (steps t) i Hv) as Hf.
    destruct (list_find _ (steps t)) as [[k l]|].
    + destruct Hf as (o & Ho & Hk & Hf). rewrite Hf. simpl. f_equal.
      rewrite (view_alter _ _ _ l k Hnd Hv Hk).
      rewrite list_insert_alter. apply list_alter_ext; [|done].
      intros x Hx. unfold view in Hx.
      assert (Hko : omap (λ l, objects t !! l) (steps t) !! k = Some o).
      { by apply list_find_Some in Hf as (? & _). }
      congruence.
    + by rewrite Hf.
  - done.
Qed.

Lemma apply_ops_sound (os : list Tracker.op) (t : ExecutionTracker) :
  sound t → sound (apply_ops os t).
Proof.
  revert t. induction os as [|o os IH]; intros t Hs; [done|].
  apply IH. by apply apply_op_sound.
Qed.

Lemma sound_new : sound new.
Proof. split; [apply NoDup_nil_2 | done]. Qed.

(** X5.  The tracker with its objects in a store is the tracker of the
    class, whatever is done with it from [new] on: read through
    [this.steps], it has the steps and the counter that the same calls
    give there. *)
Theorem store_contents (os : list Tracker.op) :
  contents (apply_ops os new) = Tracker.apply_ops os Tracker.new.
Proof.
  change Tracker.new with (contents new).
  generalize sound_new. generalize new.
  induction os as [|o os IH]; intros t Hs; [done|].
  simpl. rewrite IH by (by apply apply_op_sound).
  by rewrite apply_op_contents.
Qed.

(** X6.  The array [getSteps] returned is not touched by later calls, but
    the objects in it are the tracker's own.  After a later [addStep] or
    [clear] the holder of the array reads the same steps as before; after
    a later [updateStepDuration] the holder reads the new duration, as if
    the array had been taken after that call. *)
Theorem getSteps_shares_objects
    (os : list Tracker.op) (a : Tracker.addStep_args) (i : string) (d : Z) :
  let t := apply_ops os new in
  let snap := getSteps t in
  view snap (addStep a t).1 = view snap t
  ∧ view snap (clear t) = view snap t
  ∧ view snap (addStep a (clear t)).1 = view snap t
  ∧ view snap (updateStepDuration i d t)
    = Tracker.steps (Tracker.updateStepDuration i d (contents t)).
Proof.
  intros t snap.
  assert (Hs : sound t) by (apply apply_ops_sound, sound_new).
  destruct Hs as [Hnd Hv]. unfold view. split_and!.
  - by apply view_app_objects.
  - done.
  - by apply view_app_objects.
  - pose proof (apply_op_contents t (Tracker.OpUpdateStepDuration i d)
                  (conj Hnd Hv)) as Hc.
    simpl in Hc. rewrite <- Hc. unfold contents, view. simpl.
    unfold snap, getSteps. f_equal.
    unfold updateStepDuration. by destruct (list_find _ _) as [[??]|].
Qed.

Lemma objects_grow (os : list Tracker.op) (t : ExecutionTracker) (l : nat) :
  l < length (objects t) →
  without_duration <$> objects (apply_ops os t) !! l
  = without_duration <$> objects t !! l.
Proof.
  revert t. induction os as [|o os IH]; intros t Hl; [done|].
  simpl. rewrite IH.
  - destruct o as [a|i d|]; simpl.
    + by rewrite lookup_app_l.
    + unfold updateStepDuration. destruct (list_find _ _) as [[k l']|]; [|done].
      simpl. destruct (decide (l' = l)) as [->|Hne].
      * rewrite list_lookup_alter_eq. by destruct (objects t !! l).
      * by rewrite list_lookup_alter_ne.
    + done.
  - destruct o as [a|i d|]; simpl.
    + rewrite length_app. lia.
    + unfold updateStepDuration. destruct (list_find _ _) as [[k l']|]; [|done].
      simpl. by rewrite length_alter.
    + done.
Qed.

(** X7.  Whatever is done with the tracker after [getSteps], the array
    returned keeps its length and its steps keep every field but
    [duration]. *)
Theorem getSteps_frozen_but_duration (os later : list Tracker.op) :
  let t := apply_ops os new in
  let snap := getSteps t in
  without_duration <$> view snap (apply_ops later t)
  = without_duration <$> view snap t.
Proof.
  intros t snap.
  assert (Hs : sound t) by (apply apply_ops_sound, sound_new).
  destruct Hs as [_ Hv]. unfold snap, getSteps, view.
  induction (steps t) as [|l arr IH]; [done|].
  apply Forall_cons in Hv as [Hl Hv]. specialize (IH Hv).
  cbn [omap list_omap].
  pose proof (objects_grow later t l Hl) as Hg.
  destruct (lookup_lt_is_Some_2 _ l Hl) as [o Ho]. rewrite Ho in Hg |- *.
  destruct (objects (apply_ops later t) !! l) as [o'|]; [|done].
  cbn [fmap option_fmap option_map] in Hg.
  assert (Hwd : without_duration o' = without_duration o) by congruence.
  by rewrite !fmap_cons, IH, Hwd.
Qed.

End TrackerStoreFacts.

Example getSteps_sees_later_duration :
  let t := TrackerStore.apply_ops
             [Tracker.OpAddStep (Samples.demo_call "a");
              Tracker.OpAddStep (Samples.demo_call "b")] TrackerStore.new in
  let snap := TrackerStore.getSteps t in
  Tracker.duration <$> TrackerStore.view snap t = [None; None]
  ∧ Tracker.duration <$>
      TrackerStore.view snap (TrackerStore.updateStepDuration "step-2" 40 t)
    = [None; Some 40%Z]
  ∧ length (TrackerStore.view snap
              (TrackerStore.addStep (Samples.demo_call "c") t).1) = 2.
Proof. split_and!; reflexivity. Qed.

(** ** The tools of the agent and the trace of a run *)

Section AgentFacts.
Import Tracker Agent.
Variable JSON_stringify : Json → string.






Lemma without_duration_usd (i : string) (d : Z) (t : ExecutionTracker) :
  without_duration <$> steps (updateStepDuration i d t)
  = without_duration <$> steps t.
Proof.
  unfold updateStepDuration.
  destruct (list_find _ _) as [[j s]|] eqn:E; [|done]. cbn [steps].
  apply list_find_Some in E as (Hj & _ & _).
  rewrite list_fmap_insert. apply list_insert_id.
  by rewrite list_lookup_fmap, Hj.
Qed.

Lemma numbered_from_S (n : nat) (calls : list addStep_args) :
  imap (λ k a, mk_step (S (n + S k)) a) calls = numbered_from (S n) calls.
Proof. apply imap_ext. intros k a _. simpl. f_equal. lia. Qed.

Lemma without_duration_numbered_from (n : nat) (calls : list addStep_args) :
  without_duration <$> numbered_from n calls = numbered_from n calls.
Proof.
  unfold numbered_from. revert n.
  induction calls as [|a calls IH]; intros n; [done|].
  cbn [imap fmap list_fmap]. f_equal.
  change (without_duration <$> imap ((λ k a, mk_step (S (n + k)) a) ∘ S) calls
          = imap ((λ k a, mk_step (S (n + k)) a) ∘ S) calls).
  rewrite (imap_ext _ (λ k a, mk_step (S (S n + k)) a)).
  - apply IH.
  - intros j x _. simpl. f_equal. lia.
Qed.

(** Uses of a tracker without [clear] keep the steps it has, up to their
    durations, and append one step per [addStep]. *)
Lemma apply_ops_no_clear (os : list op) (t : ExecutionTracker) :
  no_clear os →
  without_duration <$> steps (apply_ops os t)
  = (without_duration <$> steps t) ++ numbered_from (stepCounter t) (added os)
  ∧ stepCounter (apply_ops os t) = stepCounter t + length (added os).
Proof.
  revert t. induction os as [|o os IH]; intros t Hnc.
  - simpl. rewrite app_nil_r. split; [done|lia].
  - apply Forall_cons in Hnc as [Ho Hnc].
    destruct o as [a|i d|]; [| |done].
    + change (apply_ops (OpAddStep a :: os) t)
        with (apply_ops os (addStep a t).1).
      destruct (IH (addStep a t).1 Hnc) as [Hs Hc]. rewrite Hs, Hc.
      cbn [addStep fst steps stepCounter added omap list_omap].
      fold (added os). rewrite fmap_app, <- app_assoc. split; [|simpl; lia].
      f_equal. unfold numbered_from at 2. cbn [imap fmap list_fmap app].
      rewrite Nat.add_0_r. f_equal. apply eq_sym, numbered_from_S.
    + change (apply_ops (OpUpdateStepDuration i d :: os) t)
        with (apply_ops os (updateStepDuration i d t)).
      destruct (IH (updateStepDuration i d t) Hnc) as [Hs Hc]. rewrite Hs, Hc.
      rewrite without_duration_usd, updateStepDuration_counter.
      cbn [added omap list_omap]. by fold (added os).
Qed.

Lemma numbered_length (t : ExecutionTracker) :
  numbered t → length (steps t) = stepCounter t.
Proof.
  intros Hn. rewrite <- (length_fmap id), Hn, length_fmap. apply length_seq.
Qed.

Lemma usd_numbered_lookup (j : nat) (d : Z) (t : ExecutionTracker) :
  numbered t → j < stepCounter t →
  duration <$> steps (updateStepDuration (step_id (S j)) d t) !! j = Some (Some d).
Proof.
  intros Hn Hj.
  assert (Hid : ∀ m y, steps t !! m = Some y → id y = step_id (S m)).
  { intros m y Hm.
    assert (Hm' : (id <$> steps t) !! m = Some (id y))
      by (by rewrite list_lookup_fmap, Hm).
    rewrite Hn in Hm'. apply list_lookup_fmap_Some in Hm' as (x & Hx & Hm').
    apply lookup_seq in Hm' as [-> _]. done. }
  destruct (lookup_lt_is_Some_2 (steps t) j) as [s Hs];
    [by rewrite numbered_length|].
  assert (E : list_find (λ x, id x = step_id (S j)) (steps t) = Some (j, s)).
  { apply list_find_Some. split_and!; [done | by apply Hid |].
    intros m y Hm Hlt Hy. rewrite (Hid m y Hm) in Hy.
    apply step_id_inj in Hy. lia. }
  rewrite (usd_found _ d t j s E). cbn [steps].
  rewrite list_lookup_insert_eq by (by eapply lookup_lt_Some). done.
Qed.

Lemma addStep_numbered (a : addStep_args) (t : ExecutionTracker) :
  numbered t → numbered (addStep a t).1.
Proof. apply (apply_op_numbered t (OpAddStep a)). Qed.

(** X11.  A run of [executeAgentQuery] whose agent is created and answers,
    with no [clear] from elsewhere while it waits, returns the answer and
    the steps of the tracker, and these are, whatever the tracker held
    before: the start step, the steps added while the agent was created,
    the "Analyzing" step, the steps added while the agent ran, the step
    with the answer and the end step, numbered step-1 and on.  The
    "Analyzing" step has the duration of the run; the last two steps have
    none. *)
Theorem executeAgentQuery_trace
    (query : Json) (env : run_env) (t0 : ExecutionTracker) (answer : string) :
  q_create env = None →
  q_invoke env = inl answer →
  no_clear (q_during_create env) →
  no_clear (q_during_invoke env) →
  let n1 := length (added (q_during_create env)) in
  let n2 := length (added (q_during_invoke env)) in
  let d := (q_endTime env - q_startTime env)%Z in
  let run := executeAgentQuery query env t0 in
  ∃ r,
    run.2 = inl r
    ∧ output r = answer
    ∧ result_steps r = steps run.1
    ∧ without_duration <$> result_steps r
      = [mk_step 1
           (step start
              ("Processing query: " +:+ String "034"%char
                 (ToString query +:+ String "034"%char EmptyString))
              "User" "Agent" (Some (JObj [("query", query)])) (q_at_start env))]
        ++ numbered_from 1 (added (q_during_create env))
        ++ [mk_step (2 + n1)
              (step llm_response "Analyzing query and planning actions..."
                 "Agent" "LLM" undefined (q_at_llm env))]
        ++ numbered_from (2 + n1) (added (q_during_invoke env))
        ++ [mk_step (3 + n1 + n2)
              (step llm_response answer "LLM" "User"
                 (Some (JObj [("totalDuration", JNum d)])) (q_at_output env));
            mk_step (4 + n1 + n2)
              (step end_ "Query execution completed" "Agent" "User"
                 undefined (q_at_end env))]
    ∧ duration <$> result_steps r !! (1 + n1) = Some (Some d)
    ∧ duration <$> drop (2 + n1 + n2) (result_steps r) = [None; None]
    ∧ id <$> result_steps r = step_id <$> seq 1 (4 + n1 + n2).
Proof.
  intros Hcreate Hinvoke Hnc1 Hnc2 n1 n2 d run. subst run.
  unfold executeAgentQuery. rewrite Hcreate.
  set (s0 := step start _ "User" "Agent" _ (q_at_start env)).
  set (t1 := (addStep s0 (clear t0)).1).
  assert (Hn1 : numbered t1) by done.
  set (t2 := apply_ops (q_during_create env) t1).
  destruct (apply_ops_no_clear _ t1 Hnc1) as [Hs2 Hc2]. fold t2 in Hs2, Hc2.
  assert (Hn2 : numbered t2) by (by apply apply_ops_numbered).
  cbn [steps stepCounter t1 addStep fst clear] in Hs2, Hc2.
  set (sl := step llm_response "Analyzing query and planning actions..."
               "Agent" "LLM" undefined (q_at_llm env)).
  destruct (addStep sl t2) as [t3 llmStepId] eqn:E3.
  assert (Ht3 : t3 = (addStep sl t2).1) by (by rewrite E3).
  assert (Hid : llmStepId = step_id (S (stepCounter t2)))
    by (by injection E3 as _ <-).
  assert (Hn3 : numbered t3) by (rewrite Ht3; by apply addStep_numbered).
  set (t4 := apply_ops (q_during_invoke env) t3).
  destruct (apply_ops_no_clear _ t3 Hnc2) as [Hs4 Hc4]. fold t4 in Hs4, Hc4.
  assert (Hn4 : numbered t4) by (by apply apply_ops_numbered).
  rewrite Ht3 in Hs4, Hc4. cbn [addStep fst steps stepCounter] in Hs4, Hc4.
  rewrite Hc2 in Hs4, Hc4. fold n1 in Hs4, Hc4. fold n2 in Hc4.
  rewrite Hinvoke. fold d.
  set (t5 := updateStepDuration llmStepId d t4).
  assert (Hs5 : without_duration <$> steps t5 = without_duration <$> steps t4)
    by apply without_duration_usd.
  assert (Hc5 : stepCounter t5 = stepCounter t4)
    by apply updateStepDuration_counter.
  assert (Hn5 : numbered t5).
  { unfold numbered, t5.
    by rewrite updateStepDuration_ids, updateStepDuration_counter. }
  assert (Hd5 : duration <$> steps t5 !! (1 + n1) = Some (Some d)).
  { unfold t5. rewrite Hid, Hc2. apply usd_numbered_lookup; [done|].
    rewrite Hc4. lia. }
  pose proof (numbered_length t5 Hn5) as Hl5.
  cbn [addStep fst snd steps stepCounter getSteps].
  eexists. split; [reflexivity|]. cbn [output result_steps].
  split_and!; try done.
  - rewrite <- app_assoc, !fmap_app, Hs5, Hs4, fmap_app, Hs2.
    rewrite Hc5, Hc4. rewrite <- !app_assoc. simpl. repeat f_equal; lia.
  - rewrite <- app_assoc, lookup_app_l by (rewrite Hl5, Hc5, Hc4; lia). done.
  - rewrite <- app_assoc, drop_app_length' by (rewrite Hl5, Hc5, Hc4; lia). done.
  - rewrite <- app_assoc, fmap_app, Hn5, Hc5, Hc4. cbn [fmap list_fmap].
    clearbody n1 n2.
    replace (4 + n1 + n2) with ((S (1 + n1) + n2) + 2) by lia.
    rewrite (seq_app (S (1 + n1) + n2) 2 1), (fmap_app step_id).
    reflexivity.
Qed.

Lemma executeAgentQuery_run_fails
    (query : Json) (env : run_env) (t0 : ExecutionTracker) (e : thrown) :
  q_create env = Some e ∨ (q_create env = None ∧ q_invoke env = inr e) →
  (executeAgentQuery query env t0).2 = inr e
  ∧ last (steps (executeAgentQuery query env t0).1)
    = Some (mk_step (stepCounter (executeAgentQuery query env t0).1)
              (step error ("Agent execution failed: " +:+ run_error_text e)
                 "Agent" "User"
                 (Some (JObj [("error", JStr (run_error_text e))]))
                 (q_at_error env))).
Proof.
  intros Hfail. unfold executeAgentQuery.
  destruct Hfail as [Hc|[Hc Hi]]; rewrite Hc.
  - unfold executeAgentQuery_catch. cbn [addStep fst snd steps stepCounter].
    by rewrite last_snoc.
  - destruct (addStep _ (apply_ops (q_during_create env) _)) as [t3 llmStepId].
    rewrite Hi. unfold executeAgentQuery_catch.
    cbn [addStep fst snd steps stepCounter]. by rewrite last_snoc.
Qed.

(** X12.  A run of [executeAgentQuery] whose agent cannot be created, or
    throws while it runs, throws the same value on; before that it appends
    an error step from Agent to User with the content "Agent execution
    failed: " and the message of the error ("Unknown error occurred" for a
    value that is not an [Error]), numbered like any other step.  This
    holds whatever else is done with the tracker during the run, and
    whatever the tracker held before: the steps there were are gone, the
    start step is the first unless a [clear] came in between. *)
Theorem executeAgentQuery_failure
    (query : Json) (env : run_env) (t0 : ExecutionTracker) (e : thrown) :
  q_create env = Some e ∨ (q_create env = None ∧ q_invoke env = inr e) →
  let run := executeAgentQuery query env t0 in
  run.2 = inr e
  ∧ run = executeAgentQuery query env new
  ∧ (∃ s, last (steps run.1) = Some s
          ∧ id s = step_id (stepCounter run.1)
          ∧ type s = error
          ∧ actor s = "Agent" ∧ target s = "User"
          ∧ content s = "Agent execution failed: " +:+ run_error_text e
          ∧ duration s = None).
Proof.
  intros Hfail run. subst run.
  destruct (executeAgentQuery_run_fails query env t0 e Hfail) as [Hr Hl].
  split_and!; [done | done |].
  eexists. split; [exact Hl|]. by split_and!.
Qed.

End AgentFacts.

(** ** Sessions, statistics and routing of the protocol server *)

Section ServerMore.
Import Server.
Local Set Warnings "-clear-no-such-hyp".
Variable JSON_stringify : Json → string.

Lemma handle_sessions_dom stringify ax r s :
  dom (activeSessions (handle stringify ax r s).1)
  = match r with
    | PostInitialize sid _ _ => {[sid]} ∪ dom (activeSessions s)
    | _ => dom (activeSessions s)
    end.
Proof. destruct r; simpl; [apply dom_insert_L | done | done]. Qed.

Lemma handle_all_snoc stringify rs ar s :
  handle_all stringify (rs ++ [ar]) s
  = (handle stringify ar.1 ar.2 (handle_all stringify rs s)).1.
Proof. unfold handle_all. by rewrite foldl_app. Qed.

Lemma handle_all_app stringify rs1 rs2 s :
  handle_all stringify (rs1 ++ rs2) s
  = handle_all stringify rs2 (handle_all stringify rs1 s).
Proof. unfold handle_all. by rewrite foldl_app. Qed.

Lemma handle_all_cons stringify ar rs s :
  handle_all stringify (ar :: rs) s
  = handle_all stringify rs (handle stringify ar.1 ar.2 s).1.
Proof. done. Qed.

Lemma handle_all_tools stringify rs s :
  tools (handle_all stringify rs s) = tools s.
Proof.
  induction rs as [|ar rs IH] using rev_ind; [done|].
  by rewrite handle_all_snoc, handle_tools.
Qed.

Lemma handle_all_dom stringify rs s :
  dom (activeSessions (handle_all stringify rs s))
  = list_to_set (initialized_ids rs) ∪ dom (activeSessions s).
Proof.
  induction rs as [|[ax r] rs IH] using rev_ind.
  - simpl. set_solver.
  - rewrite handle_all_snoc, handle_sessions_dom. simpl.
    unfold initialized_ids in *. rewrite omap_app, list_to_set_app_L. simpl.
    destruct r; simpl; rewrite IH; set_solver.
Qed.

(** X13.  After any requests, the sessions the server holds are the
    distinct values of the session header that came with initialize
    requests, an absent header counting as one value; tools/list and
    tools/call requests register nothing.  [getServerStats] reports their
    number, which is at most the number of initialize requests, and three
    registered tools. *)
Theorem sessions_are_initialized_ids
    (rs : list ((http_method → string → any → outcome) * request)) :
  let s := handle_all JSON_stringify rs construct in
  dom (activeSessions s) = list_to_set (initialized_ids rs)
  ∧ stats_activeSessions (getServerStats s)
    = size (list_to_set (initialized_ids rs) : gset (option string))
  ∧ (stats_activeSessions (getServerStats s) ≤ length (initialized_ids rs))%nat
  ∧ toolsRegistered (getServerStats s) = 3.
Proof.
  intros s.
  assert (Hd : dom (activeSessions s) = list_to_set (initialized_ids rs)).
  { subst s. rewrite handle_all_dom. simpl. rewrite dom_empty_L. set_solver. }
  assert (Hsz : stats_activeSessions (getServerStats s)
                = size (list_to_set (initialized_ids rs) : gset (option string))).
  { simpl. by rewrite <- size_dom, Hd. }
  split_and!; [done | done | |].
  - rewrite Hsz. generalize (initialized_ids rs). intros l.
    induction l as [|x l IH]; simpl; [done|].
    rewrite size_union_alt, size_singleton.
    assert (size (list_to_set l ∖ {[x]} : gset (option string))
            ≤ size (list_to_set l : gset (option string)))%nat
      by (apply subseteq_size; set_solver).
    lia.
  - subst s. simpl. by rewrite handle_all_tools.
Qed.

Lemma handle_all_lookup_other stringify rs s sid :
  sid ∉ initialized_ids rs →
  activeSessions (handle_all stringify rs s) !! sid = activeSessions s !! sid.
Proof.
  induction rs as [|[ax r] rs IH] using rev_ind; intros Hn; [done|].
  unfold initialized_ids in *. rewrite omap_app in Hn.
  apply not_elem_of_app in Hn as [Hn1 Hn2].
  rewrite handle_all_snoc. simpl. destruct r as [sid' now rq|rq|rq]; simpl.
  - simpl in Hn2. rewrite lookup_insert_ne; [by apply IH|].
    intros ->. apply Hn2. by left.
  - by apply IH.
  - by apply IH.
Qed.

(** X14.  The session kept under a header value is that of the last
    initialize request that carried it: its [clientInfo] (undefined when
    the request had none) and the time of that request.  Requests that
    follow, of any kind and for other sessions, leave it as it is. *)
Theorem last_initialize_wins
    (before after : list ((http_method → string → any → outcome) * request))
    (ax : http_method → string → any → outcome)
    (sid : option string) (now : string) (rq : MCPRequest) :
  sid ∉ initialized_ids after →
  activeSessions
    (handle_all JSON_stringify (before ++ (ax, PostInitialize sid now rq) :: after)
       construct) !! sid
  = Some {| clientInfo := rq_params rq ≫= prop "clientInfo"; connectedAt := now |}.
Proof.
  intros Hn. rewrite handle_all_app, handle_all_cons.
  rewrite handle_all_lookup_other by done. simpl.
  by rewrite lookup_insert_eq.
Qed.

Variable axios : http_method → string → any → outcome.

(** X15.  When the implementation of a registered tool rejects, the call
    handler replies with status 500 and an error envelope: the id of the
    request, no result, code -32603, and as message the message of the
    error, or "Tool execution failed" when what was thrown is not an
    [Error]. *)
Theorem tools_call_handler_failure
    (rq : MCPRequest) (params : Json) (n : string)
    (h : any → outcome) (e : thrown) :
  rq_params rq = Some params →
  prop "name" params = Some (JStr n) →
  handler_of axios n = Some h →
  h (prop "arguments" params) = Rejected e →
  tools_call JSON_stringify axios rq
  = Some {| status := 500;
            body := {| rs_id := rq_id rq;
                       result := None;
                       error := Some
                         {| code := (-32603)%Z;
                            message := match e with
                                       | ErrorObj m => m
                                       | NonError => "Tool execution failed"
                                       end;
                            data := undefined |} |} |}.
Proof.
  intros Hp Hn Hh Hr. unfold tools_call. rewrite Hp.
  destruct params; try done.
  by rewrite Hn, dispatch_handler_of, Hh, Hr.
Qed.



End ServerMore.

(** ** The client over its methods, and against the server *)

Section ClientMore.
Import Client.

Lemma initialize_unfold (fetch : fetch_call → fetch_outcome) (w : world) :
  initialize fetch w
  = let sent := sendMCPRequest fetch "/mcp/initialize" initialize_request w in
    match sent.1 with
    | Throw _ => (Throw (ErrorObj "Failed to establish MCP connection"), sent.2)
    | Return m =>
        let w' := {| this := {| serverUrl := serverUrl (this sent.2);
                                sessionId := sessionId (this sent.2);
                                capabilities := result m |};
                     wire := wire sent.2 |} in
        match result m ≫= tools_of with
        | Some _ =>
            match result m with
            | Some caps => (Return caps, w')
            | None => (Throw (ErrorObj "Failed to establish MCP connection"), w')
            end
        | None => (Throw (ErrorObj "Failed to establish MCP connection"), w')
        end
    end.
Proof.
  unfold initialize, try_catch, bind.
  destruct (sendMCPRequest _ _ _ _) as [[m|e] w']; [|done]. simpl.
  by destruct (result m) as [[c|ts|blocks|[]]|].
Qed.

Lemma discoverTools_unfold (fetch : fetch_call → fetch_outcome) (w : world)
    (caps : result_value) :
  capabilities (this w) = Some caps →
  result_truthy caps = true →
  discoverTools fetch w
  = let sent := sendMCPRequest fetch "/mcp/tools/list"
                  {| rq_id := IdNum 2; rq_method := "tools/list";
                     rq_params := undefined |} w in
    (match sent.1 with
     | Throw e => Throw e
     | Return m =>
         match result m with
         | None => Throw (TypeError_reading "tools")
         | Some (ROther JNull) => Throw (Agent.TypeError_null "tools")
         | Some r =>
             match tools_of r with
             | Some ts => Return ts
             | None => match tools_of caps with
                       | Some ts => Return ts
                       | None => Throw (TypeError_reading "forEach")
                       end
             end
         end
     end, sent.2).
Proof.
  intros Hc Ht. unfold discoverTools, bind, get_this. simpl. rewrite Hc, Ht. simpl.
  destruct (sendMCPRequest _ _ _ _) as [[m|e] w']; [|done]. simpl.
  destruct (result m) as [[c|ts|blocks|[]]|]; try done; simpl;
    by destruct (tools_of caps).
Qed.

(** [discoverTools] on an object whose [capabilities] counts as false
    throws at once. *)
Lemma discoverTools_refuses (fetch : fetch_call → fetch_outcome) (w : world) :
  capabilities (this w) = None
  ∨ (∃ caps, capabilities (this w) = Some caps ∧ result_truthy caps = false) →
  discoverTools fetch w
  = (Throw (ErrorObj "MCP not initialized. Call initialize() first."), w).
Proof.
  unfold discoverTools, bind, get_this. simpl.
  intros [Hc|(caps & Hc & Ht)]; rewrite Hc; [done|]. by rewrite Ht.
Qed.

(** What one method call does to the object and to the wire. *)
Lemma invoke_effect (fetch : fetch_call → fetch_outcome) (m : method) (w : world) :
  ∃ sent,
    wire (invoke fetch m w) = wire w ++ sent
    ∧ (length sent ≤ 1)%nat
    ∧ Forall (well_addressed (this w)) sent
    ∧ serverUrl (this (invoke fetch m w)) = serverUrl (this w)
    ∧ sessionId (this (invoke fetch m w)) = sessionId (this w)
    ∧ (m ≠ MInitialize → this (invoke fetch m w) = this w)
    ∧ (m = MGetSessionInfo → sent = []).
Proof.
  assert (Hwa : ∀ ep rq, Forall (well_addressed (this w)) [call_of (this w) ep rq]).
  { intros. by apply Forall_singleton. }
  destruct m as [| |n p now|]; simpl.
  - rewrite initialize_unfold, sendMCPRequest_unfold. cbn [fst snd].
    eexists [_]. 
    repeat match goal with
           | |- context [match ?x with _ => _ end] => destruct x
           end; simpl; split_and!; try done; try apply Hwa.
  - destruct (capabilities (this w)) as [caps|] eqn:Hc;
      [destruct (result_truthy caps) eqn:Ht|].
    + rewrite (discoverTools_unfold _ _ caps Hc Ht), sendMCPRequest_unfold. simpl.
      eexists [_]. split_and!; try done; try apply Hwa.
    + exists []. rewrite discoverTools_refuses by eauto. simpl.
      rewrite app_nil_r. split_and!; try done; simpl; lia.
    + exists []. rewrite discoverTools_refuses by eauto. simpl.
      rewrite app_nil_r. split_and!; try done; simpl; lia.
  - rewrite callTool_unfold, sendMCPRequest_unfold. simpl.
    eexists [_]. split_and!; try done; try apply Hwa.
  - exists []. unfold getSessionInfo, bind, get_this. simpl.
    rewrite app_nil_r.
    destruct (capabilities (this w)) as [[c|ts|blocks|[]]|];
      (split_and!; try done; simpl; lia).
Qed.

(** X18.  Whatever methods are called on a client object, in whatever
    order and whatever the network does, the object keeps its server
    address and its session id, every request it sends goes to that
    address with that session id, the protocol version 2024-11-05 and the
    JSON content type, and each call sends at most one request. *)
Theorem requests_well_addressed
    (c0 : MCPClient) (calls : list ((fetch_call → fetch_outcome) * method)) :
  let w := invoke_all calls {| this := c0; wire := [] |} in
  serverUrl (this w) = serverUrl c0
  ∧ sessionId (this w) = sessionId c0
  ∧ Forall (well_addressed c0) (wire w)
  ∧ (length (wire w) ≤ length calls)%nat.
Proof.
  intros w. subst w. unfold invoke_all.
  induction calls as [|[f m] calls IH] using rev_ind; [by split_and!|].
  rewrite foldl_app. simpl.
  destruct IH as (Hu & Hs & Hw & Hl).
  destruct (invoke_effect f m (foldl (λ w fm, invoke fm.1 fm.2 w)
                                 {| this := c0; wire := [] |} calls))
    as (sent & Hsent & Hlen & Hwa & Hu' & Hs' & _).
  rewrite Hsent, Hu', Hs', length_app, length_app. simpl.
  split_and!; [done | done | | lia].
  apply Forall_app. split; [done|].
  eapply Forall_impl; [done|]. unfold well_addressed. intros fc. by rewrite Hu, Hs.
Qed.

(** X19.  Only [initialize] writes [capabilities]: calls of
    [discoverTools], [callTool] and [getSessionInfo], however many and
    however they end, leave the whole client object as it is. *)
Theorem only_initialize_writes_capabilities
    (w0 : world) (calls : list ((fetch_call → fetch_outcome) * method)) :
  Forall (λ fm, fm.2 ≠ MInitialize) calls →
  this (invoke_all calls w0) = this w0.
Proof.
  unfold invoke_all.
  induction calls as [|[f m] calls IH] using rev_ind; intros Hni; [done|].
  apply Forall_app in Hni as [Hni Hm]. rewrite Forall_singleton in Hm.
  rewrite foldl_app. simpl.
  destruct (invoke_effect f m (foldl (λ w fm, invoke fm.1 fm.2 w) w0 calls))
    as (_ & _ & _ & _ & _ & _ & Hthis & _).
  rewrite Hthis by exact Hm. by apply IH.
Qed.


End ClientMore.

Section EndToEndMore.
Import Client.
Variable JSON_stringify : Json → string.
Variable axios : Server.http_method → string → any → Server.outcome.

(** X21.  The start-up of the CLI client against a server: [initialize]
    and [discoverTools] both succeed, the client ends up holding the
    capabilities the server sent (the three tools, version 2024-11-05,
    streaming false, cancellation and progress true), and exactly two
    requests went out, to /mcp/initialize with id 1 and to /mcp/tools/list
    with id 2, under the one session id of the client. *)
Theorem initializeMCPClient_with_server
    (s : Server.MCPServerProtocol) (server_now : string) (c0 : MCPClient) :
  Server.reachable s →
  let caps := RCapabilities
                {| cap_tools := three_tools;
                   version := "2024-11-05";
                   features := {| streaming := Some false;
                                  cancellation := Some true;
                                  progress := Some true |} |} in
  let c1 := {| serverUrl := serverUrl c0; sessionId := sessionId c0;
               capabilities := Some caps |} in
  let fetch := fetch_from JSON_stringify axios s server_now in
  initializeMCPClient fetch {| this := c0; wire := [] |}
  = (Return c1,
     {| this := c1;
        wire := [call_of c0 "/mcp/initialize" initialize_request;
                 call_of c0 "/mcp/tools/list"
                   {| rq_id := IdNum 2; rq_method := "tools/list";
                      rq_params := undefined |}] |})
  ∧ discoverTools fetch (initialize fetch {| this := c0; wire := [] |}).2
    = (Return three_tools,
       {| this := c1;
          wire := [call_of c0 "/mcp/initialize" initialize_request;
                   call_of c0 "/mcp/tools/list"
                     {| rq_id := IdNum 2; rq_method := "tools/list";
                        rq_params := undefined |}] |}).
Proof.
  intros Hs caps c1 fetch.
  pose proof (reachable_tools s Hs) as Ht.
  assert (Hinit : initialize fetch {| this := c0; wire := [] |}
                  = (Return caps,
                     {| this := c1;
                        wire := [call_of c0 "/mcp/initialize" initialize_request] |})).
  { rewrite initialize_unfold, sendMCPRequest_unfold. subst fetch.
    unfold fetch_from. cbn [call_of fc_endpoint fc_body this wire].
    rewrite decide_True by done. simpl. rewrite Ht. done. }
  assert (Hdisc : discoverTools fetch
                    {| this := c1;
                       wire := [call_of c0 "/mcp/initialize" initialize_request] |}
                  = (Return three_tools,
                     {| this := c1;
                        wire := [call_of c0 "/mcp/initialize" initialize_request;
                                 call_of c0 "/mcp/tools/list"
                                   {| rq_id := IdNum 2; rq_method := "tools/list";
                                      rq_params := undefined |}] |})).
  { rewrite (discoverTools_unfold _ _ caps) by done.
    rewrite sendMCPRequest_unfold. subst fetch.
    unfold fetch_from. cbn [call_of fc_endpoint fc_body this wire].
    rewrite decide_False by done. rewrite decide_True by done.
    simpl. rewrite Ht. done. }
  split.
  - unfold initializeMCPClient, try_catch, bind. rewrite Hinit.
    cbv beta iota. rewrite Hdisc. done.
  - rewrite Hinit. cbn [snd]. by rewrite Hdisc.
Qed.

(** X22.  The start-up of the CLI client when the handshake request fails:
    it throws the error of [initialize], "Failed to establish MCP
    connection", after that one request; the discovery is not tried and
    the client object is left as it was. *)
Theorem initializeMCPClient_unreachable
    (fetch : fetch_call → fetch_outcome) (c0 : MCPClient) (cause : thrown) :
  request_fails (fetch (call_of c0 "/mcp/initialize" initialize_request)) cause →
  initializeMCPClient fetch {| this := c0; wire := [] |}
  = (Throw (ErrorObj "Failed to establish MCP connection"),
     {| this := c0;
        wire := [call_of c0 "/mcp/initialize" initialize_request] |}).
Proof.
  intros Hfail.
  apply (sendMCPRequest_throws fetch "/mcp/initialize" initialize_request
           {| this := c0; wire := [] |}) in Hfail.
  unfold initializeMCPClient, try_catch, bind.
  rewrite initialize_unfold. cbv zeta. rewrite Hfail.
  rewrite sendMCPRequest_unfold. done.
Qed.

Lemma callTool_via_handler
    (s : Server.MCPServerProtocol) (server_now : string)
    (toolName : string) (parameters : any) (now : Z) (w : world)
    (h : any → Server.outcome) :
  handler_of axios toolName = Some h →
  callTool (fetch_from JSON_stringify axios s server_now)
    toolName parameters now w
  = (match h parameters with
     | Server.Resolved r =>
         Return (Some (RContent [{| cb_type := "text";
                                    cb_text := JSON_stringify r |}]))
     | Server.Rejected _ =>
         Throw (ErrorObj "MCP request failed: 500 Internal Server Error")
     end,
     {| this := this w;
        wire := wire w ++ [call_of (this w) "/mcp/tools/call"
                             (callTool_request toolName parameters now)] |}).
Proof.
  intros Hh.
  destruct (callTool_request_fields toolName parameters now)
    as (params & Hp & Hnull & Hname & Hargs).
  rewrite callTool_unfold, sendMCPRequest_unfold.
  unfold fetch_from. cbn [call_of fc_endpoint fc_body].
  rewrite decide_False by done. rewrite decide_False by done.
  rewrite decide_True by done.
  unfold Server.tools_call. rewrite Hp.
  destruct params; try done;
    rewrite Hname, dispatch_handler_of, Hh, Hargs;
    by destruct (h parameters).
Qed.

(** X23.  [callTool] for a registered tool, against the server: one
    request goes out and the client object stays as it is.  When the
    implementation resolves with [r] the call returns the result of the
    envelope, one text block with [JSON.stringify(r)].  When it rejects,
    with whatever error, the call throws "MCP request failed: 500 Internal
    Server Error" -- the error it throws for a tool the server does not
    know. *)
Theorem callTool_through_server
    (s : Server.MCPServerProtocol) (server_now : string)
    (toolName : string) (parameters : any) (now : Z) (w : world) :
  toolName ∈ Server.registered_names →
  ∃ h,
    handler_of axios toolName = Some h
    ∧ callTool (fetch_from JSON_stringify axios s server_now)
        toolName parameters now w
      = (match h parameters with
         | Server.Resolved r =>
             Return (Some (RContent [{| cb_type := "text";
                                        cb_text := JSON_stringify r |}]))
         | Server.Rejected _ =>
             Throw (ErrorObj "MCP request failed: 500 Internal Server Error")
         end,
         {| this := this w;
            wire := wire w ++ [call_of (this w) "/mcp/tools/call"
                                 (callTool_request toolName parameters now)] |}).
Proof.
  intros Hreg. apply (handler_of_registered axios) in Hreg as [h Hh].
  exists h. split; [done|]. by apply callTool_via_handler.
Qed.


End EndToEndMore.

(** ** The tool server *)

Lemma template_has_own_toString (num : Z → string) (v : any) :
  has_own_toString v → template num v = None.
Proof. intros (fs & w & -> & Hw). simpl. by rewrite Hw. Qed.

Section ToolServerFacts.
Import ToolServer.
Variable JSON_stringify : Json → string.
Variable error_page : string.

Lemma add_reminder_cases (body : Json) (now : Z) (rnd iso : string)
    (db : list Reminder) :
  let r := {| id := "reminder_" +:+ pretty now +:+ "_" +:+ rnd;
              time := prop "time" body; task := prop "task" body;
              email := undefined; createdAt := iso |} in
  add_reminder JSON_stringify error_page body now rnd iso db
  = match template (Number_toString JSON_stringify) (prop "time" body),
          template (Number_toString JSON_stringify) (prop "task" body) with
    | Some time_text, Some task_text =>
        if truthy (prop "time" body) && truthy (prop "task" body) then
          (db ++ [r],
           {| status := 200;
              json := JObj [("message",
                               JStr ("Reminder added: " +:+ task_text
                                     +:+ " at " +:+ time_text));
                            ("reminder", reminder_json r)] |})
        else
          (db,
           {| status := 400;
              json := JObj [("error",
                               JStr "Missing 'time' or 'task' in request body.")] |})
    | _, _ => (db, {| status := 500; json := JStr error_page |})
    end.
Proof.
  intros r. unfold add_reminder. cbv zeta.
  destruct (template _ (prop "time" body)); [|done].
  destruct (template _ (prop "task" body)); [|done].
  by destruct (truthy (prop "time" body)), (truthy (prop "task" body)).
Qed.


Lemma handle_grows (r : request) (db : list Reminder) :
  ∃ new, (handle JSON_stringify error_page r db).1 = db ++ new
         ∧ (length new ≤ 1)%nat
         ∧ Forall (λ x, truthy (time x) = true ∧ truthy (task x) = true) new.
Proof.
  assert (Hnone : ∃ new : list Reminder, db = db ++ new ∧ (length new ≤ 1)%nat
            ∧ Forall (λ x, truthy (time x) = true ∧ truthy (task x) = true) new).
  { exists []. rewrite app_nil_r. split_and!; try done. simpl. lia. }
  destruct r as [|body now rnd iso|body env srv now rnd iso]; simpl.
  - done.
  - rewrite add_reminder_cases.
    destruct (template _ (prop "time" body)); [|done].
    destruct (template _ (prop "task" body)); [|done].
    destruct (truthy (prop "time" body)) eqn:Ht,
             (truthy (prop "task" body)) eqn:Hk; simpl; try done.
    eexists [_]. split_and!; try done. by apply Forall_singleton.
  - unfold send_email_reminder. cbv zeta.
    repeat match goal with
           | |- context [match template ?n ?v with _ => _ end] =>
               destruct (template n v)
           end; try done.
    destruct (truthy (prop "time" body)) eqn:Ht,
             (truthy (prop "task" body)) eqn:Hk,
             (truthy (prop "email" body)) eqn:He; simpl; try done.
    destruct (srv _); simpl; [|done].
    eexists [_]. split_and!; try done. by apply Forall_singleton.
Qed.

(** X26.  The reminders only grow: whatever requests the three reminder
    endpoints get, the reminders there were stay, in their order, and at
    most one is appended per request; every reminder stored since the
    process started has a [time] and a [task] that count as true. *)
Theorem reminders_append_only (rs : list request) (db : list Reminder) :
  (∃ new, handle_all JSON_stringify error_page rs db = db ++ new
          ∧ (length new ≤ length rs)%nat)
  ∧ Forall (λ x, truthy (time x) = true ∧ truthy (task x) = true)
      (handle_all JSON_stringify error_page rs []).
Proof.
  assert (H : ∀ db0, ∃ new,
            handle_all JSON_stringify error_page rs db0 = db0 ++ new
            ∧ (length new ≤ length rs)%nat
            ∧ Forall (λ x, truthy (time x) = true ∧ truthy (task x) = true) new).
  { induction rs as [|r rs IH] using rev_ind; intros db0.
    - exists []. by rewrite app_nil_r.
    - destruct (IH db0) as (new & Hnew & Hlen & Hall).
      unfold handle_all in *. rewrite foldl_app. simpl. rewrite Hnew.
      destruct (handle_grows r (db0 ++ new)) as (new' & -> & Hlen' & Hall').
      exists (new ++ new'). rewrite app_assoc, !length_app. simpl.
      split_and!; [done | lia | by apply Forall_app]. }
  split.
  - destruct (H db) as (new & ? & ? & _). by exists new.
  - destruct (H []) as (new & -> & _ & Hall). done.
Qed.


End ToolServerFacts.

Section ThroughToolServer.
Variable JSON_stringify : Json → string.
Variable error_page : string.



(** X30.  [POST /agent/execute] with a query that counts as true, for a
    run that fails: the reply has status 500, the error "Failed to execute
    query" and, as its steps, one step made up for the reply (id "error",
    from System to Client, "Internal server error").  When the query has a
    text the run was made: its trace, which ends with the error step that
    names the failure, stays in the tracker and is not sent.  When the
    query has no text the handler fails in its log line, before the run:
    the reply is the same and the tracker is as it was. *)
Theorem agent_execute_failure
    (body query : Json) (env : Agent.run_env) (iso : string)
    (tracker : Tracker.ExecutionTracker) (e : thrown) :
  prop "query" body = Some query →
  ToolServer.truthy (Some query) = true →
  Agent.q_create env = Some e
  ∨ (Agent.q_create env = None ∧ Agent.q_invoke env = inr e) →
  let out := ToolServer.agent_execute JSON_stringify body env iso tracker in
  ToolServer.ex_status out.2 = 500%Z
  ∧ ToolServer.ex_error out.2 = Some "Failed to execute query"
  ∧ ToolServer.ex_output out.2 = None
  ∧ ToolServer.ex_steps out.2
    = Some [{| Tracker.id := "error";
               Tracker.type := Tracker.error;
               Tracker.timestamp := iso;
               Tracker.content := "Internal server error";
               Tracker.actor := "System";
               Tracker.target := "Client";
               Tracker.duration := None;
               Tracker.metadata := undefined |}]
  ∧ match template (Number_toString JSON_stringify) (Some query) with
    | Some _ =>
        out.1 = (Agent.executeAgentQuery query env tracker).1
        ∧ Tracker.content <$> last (Tracker.steps out.1)
          = Some ("Agent execution failed: " +:+ Agent.run_error_text e)
    | None => out.1 = tracker
    end
  ∧ (has_own_toString (Some query) → out.1 = tracker).
Proof.
  intros Hq Ht Hfail out. subst out. unfold ToolServer.agent_execute.
  rewrite Hq, Ht.
  pose proof (template_has_own_toString (Number_toString JSON_stringify)
                (Some query)) as Hobj.
  destruct (template _ (Some query)) as [text|] eqn:Hx.
  - destruct (executeAgentQuery_run_fails query env tracker e Hfail) as [Hr Hl].
    destruct (Agent.executeAgentQuery query env tracker) as [t' r].
    simpl in Hr, Hl. subst r. simpl. split_and!; try done.
    + by rewrite Hl.
    + intros Ho. by specialize (Hobj Ho).
  - by split_and!.
Qed.

End ThroughToolServer.

(** ** Instances *)

Lemma executeAgentQuery_trace_witness :
  ∃ r, (Agent.executeAgentQuery (JStr "What are my reminders?")
          MoreSamples.run_ok Samples.demo_tracker).2 = inl r
       ∧ Agent.output r = "You have no reminders set."
       ∧ Tracker.id <$> Agent.result_steps r
         = ["step-1"; "step-2"; "step-3"; "step-4"; "step-5"].
Proof.
  destruct (executeAgentQuery_trace (JStr "What are my reminders?")
              MoreSamples.run_ok Samples.demo_tracker
              "You have no reminders set." eq_refl eq_refl)
    as (r & Hr & Ho & _ & _ & _ & _ & Hids).
  - constructor.
  - repeat constructor; discriminate.
  - exists r. split_and!; [exact Hr | exact Ho | exact Hids].
Defined.

Lemma executeAgentQuery_failure_witness :
  (Agent.executeAgentQuery (JStr "What are my reminders?")
     MoreSamples.run_bad Samples.demo_tracker).2
  = inr (ErrorObj "quota exceeded").
Proof.
  exact (proj1 (executeAgentQuery_failure (JStr "What are my reminders?")
                  MoreSamples.run_bad Samples.demo_tracker
                  (ErrorObj "quota exceeded")
                  (or_intror (conj eq_refl eq_refl)))).
Defined.




Lemma last_initialize_wins_witness :
  Server.activeSessions
    (Server.handle_all ToString
       ([(Samples.axios_up,
          Server.PostInitialize (Some "s1") "09:00" (MoreSamples.init_request 1))]
        ++ (Samples.axios_up,
            Server.PostInitialize (Some "s1") "10:00" (MoreSamples.init_request 2))
           :: [(Samples.axios_up,
                Server.PostInitialize None "11:00" (MoreSamples.init_request 3))])
       Server.construct) !! Some "s1"
  = Some {| Server.clientInfo := Some (JObj [("name", JStr "cli")]);
            Server.connectedAt := "10:00" |}.
Proof.
  apply (last_initialize_wins ToString
           [(Samples.axios_up,
             Server.PostInitialize (Some "s1") "09:00" (MoreSamples.init_request 1))]
           [(Samples.axios_up,
             Server.PostInitialize None "11:00" (MoreSamples.init_request 3))]
           Samples.axios_up (Some "s1") "10:00" (MoreSamples.init_request 2)).
  intros Hin. apply list_elem_of_singleton in Hin. discriminate Hin.
Defined.

Lemma tools_call_handler_failure_witness :
  Server.tools_call ToString Samples.axios_down
    (MoreSamples.call_request
       (JObj [("name", JStr "list_reminders"); ("arguments", JObj [])]))
  = Some {| status := 500;
            body := {| rs_id := IdNum 7; result := None;
                       error := Some
                         {| code := (-32603)%Z;
                            message := "connect ECONNREFUSED 127.0.0.1:3000";
                            data := undefined |} |} |}.
Proof.
  apply (tools_call_handler_failure ToString Samples.axios_down
           (MoreSamples.call_request
              (JObj [("name", JStr "list_reminders"); ("arguments", JObj [])]))
           (JObj [("name", JStr "list_reminders"); ("arguments", JObj [])])
           "list_reminders"
           (Server.executeListReminders Samples.axios_down)
           (ErrorObj "connect ECONNREFUSED 127.0.0.1:3000"));
    reflexivity.
Defined.


(** A name that is an object with an entry [toString] of its own, alone or
    in an array: no reply.  Other names that are no strings: the reply for
    an unknown tool. *)
Example tools_call_name_without_text :
  Server.tools_call ToString Samples.axios_up
    (MoreSamples.call_request (JObj [("name", JObj [("toString", JNum 1)])]))
  = None
  ∧ Server.tools_call ToString Samples.axios_up
      (MoreSamples.call_request
         (JObj [("name", JArr [JStr "a"; JObj [("toString", JNum 1)]])]))
    = None
  ∧ (message <$>
       (Server.tools_call ToString Samples.axios_up
          (MoreSamples.call_request
             (JObj [("name", JArr [JStr "add_reminder"; JNull;
                                   JArr [JBool true; JObj []]])])) ≫=
        λ r, error (body r)))
    = Some "Unknown tool: add_reminder,,true,[object Object]"
  ∧ (message <$>
       (Server.tools_call ToString Samples.axios_up
          (MoreSamples.call_request (JObj [("name", JObj [("valueOf", JNum 1)])])) ≫=
        λ r, error (body r)))
    = Some "Unknown tool: [object Object]".
Proof. split_and!; reflexivity. Qed.


Lemma only_initialize_writes_capabilities_witness :
  Client.this
    (Client.invoke_all
       [(Samples.fetch_down, Client.MDiscoverTools);
        (Samples.fetch_refusing, Client.MCallTool "add_reminder" undefined 5);
        (Samples.fetch_odd, Client.MGetSessionInfo)] Samples.w0)
  = Samples.client0.
Proof.
  apply (only_initialize_writes_capabilities Samples.w0
           [(Samples.fetch_down, Client.MDiscoverTools);
            (Samples.fetch_refusing, Client.MCallTool "add_reminder" undefined 5);
            (Samples.fetch_odd, Client.MGetSessionInfo)]).
  repeat constructor; discriminate.
Defined.

Lemma initializeMCPClient_with_server_witness :
  Server.reachable Server.construct
  ∧ (Client.initializeMCPClient
       (fetch_from ToString Samples.axios_up Server.construct MoreSamples.iso0)
       Samples.w0).1
    = Client.Return
        {| Client.serverUrl := "http://localhost:3000";
           Client.sessionId := "mcp_session_1700000000000_k3j9x0q2a";
           Client.capabilities := Some (RCapabilities
             {| cap_tools := three_tools;
                version := "2024-11-05";
                features := {| streaming := Some false;
                               cancellation := Some true;
                               progress := Some true |} |}) |}.
Proof.
  assert (Hr : Server.reachable Server.construct) by apply rtc_refl.
  split; [exact Hr|].
  destruct (initializeMCPClient_with_server ToString Samples.axios_up
              Server.construct MoreSamples.iso0 Samples.client0 Hr) as [Hi _].
  change {| Client.this := Samples.client0; Client.wire := [] |}
    with Samples.w0 in Hi.
  by rewrite Hi.
Defined.

Lemma initializeMCPClient_unreachable_witness :
  Client.initializeMCPClient Samples.fetch_down Samples.w0
  = (Client.Throw (ErrorObj "Failed to establish MCP connection"),
     {| Client.this := Samples.client0;
        Client.wire := [call_of Samples.client0 "/mcp/initialize"
                          Client.initialize_request] |}).
Proof.
  apply (initializeMCPClient_unreachable Samples.fetch_down Samples.client0
           (ErrorObj "fetch failed")).
  apply fails_fetch.
Defined.

Lemma callTool_through_server_witness :
  ("list_reminders" ∈ Server.registered_names)
  ∧ (Client.callTool
       (fetch_from ToString Samples.axios_down Server.construct MoreSamples.iso0)
       "list_reminders" (Some (JObj [])) 1700000000000 Samples.w0).1
    = Client.Throw (ErrorObj "MCP request failed: 500 Internal Server Error").
Proof.
  assert (Hin : "list_reminders" ∈ Server.registered_names) by compute_done.
  split; [exact Hin|].
  destruct (callTool_through_server ToString Samples.axios_down Server.construct
              MoreSamples.iso0 "list_reminders" (Some (JObj [])) 1700000000000
              Samples.w0 Hin) as (h & Hh & Hc).
  rewrite Hc. injection Hh as <-. reflexivity.
Defined.




(** The tool server on bodies whose [time] is no string.  A number is
    stored as it is and printed in the message; an object with an entry
    [toString] of its own makes the handler throw: the framework replies
    500, nothing is stored, and the call handler of the protocol server
    passes the failure on. *)
Example add_reminder_time_not_a_string :
  ToolServer.add_reminder ToString MoreSamples.error_page0
    (JObj [("time", JNum 9); ("task", JStr "stand-up")])
    1700000000000 "k3j9x0q2a" MoreSamples.iso0 []
  = ([{| ToolServer.id := "reminder_1700000000000_k3j9x0q2a";
         ToolServer.time := Some (JNum 9);
         ToolServer.task := Some (JStr "stand-up");
         ToolServer.email := undefined;
         ToolServer.createdAt := MoreSamples.iso0 |}],
     {| ToolServer.status := 200;
        ToolServer.json :=
          JObj [("message", JStr "Reminder added: stand-up at 9");
                ("reminder",
                   JObj [("id", JStr "reminder_1700000000000_k3j9x0q2a");
                         ("time", JNum 9); ("task", JStr "stand-up");
                         ("createdAt", JStr MoreSamples.iso0)])] |})
  ∧ ToolServer.add_reminder ToString MoreSamples.error_page0
      (JObj [("time", JObj [("toString", JNum 1)]); ("task", JStr "stand-up")])
      1700000000000 "k3j9x0q2a" MoreSamples.iso0 []
    = ([], {| ToolServer.status := 500;
              ToolServer.json := JStr MoreSamples.error_page0 |})
  ∧ (message <$>
       (Server.tools_call ToString MoreSamples.axios_tool_server
          (MoreSamples.call_request
             (JObj [("name", JStr "add_reminder");
                    ("arguments",
                       JObj [("time", JObj [("toString", JNum 1)]);
                             ("task", JStr "stand-up")])])) ≫=
        λ r, error (body r)))
    = Some "Request failed with status code 500".
Proof. split_and!; reflexivity. Qed.

(** The email endpoint on a body one of whose logged values has no text:
    no reply, nothing stored, whatever the email server would do. *)
Example send_email_reminder_without_text :
  ∀ email_server,
    ToolServer.send_email_reminder ToString
      (JObj [("time", JStr "10:00 AM"); ("task", JStr "stand-up");
             ("email", JStr "a@b.c");
             ("eventLocation", JObj [("toString", JNum 1)])])
      None email_server 1700000000000 "k3j9x0q2a" MoreSamples.iso0 []
    = ([], None).
Proof. reflexivity. Qed.

Lemma agent_execute_failure_witness :
  ToolServer.ex_status
    (ToolServer.agent_execute ToString
       (JObj [("query", JStr "What are my reminders?")])
       MoreSamples.run_bad MoreSamples.iso0 Samples.demo_tracker).2 = 500%Z.
Proof.
  exact (proj1 (agent_execute_failure ToString
                  (JObj [("query", JStr "What are my reminders?")])
                  (JStr "What are my reminders?")
                  MoreSamples.run_bad MoreSamples.iso0 Samples.demo_tracker
                  (ErrorObj "quota exceeded")
                  eq_refl eq_refl (or_intror (conj eq_refl eq_refl)))).
Defined.

(** A query without a text: the reply of the [catch], and the tracker as
    it was, although the run would have succeeded. *)
Example agent_execute_query_without_text :
  ToolServer.agent_execute ToString
    (JObj [("query", JObj [("toString", JNum 1)])])
    MoreSamples.run_ok MoreSamples.iso0 Samples.demo_tracker
  = (Samples.demo_tracker, ToolServer.execute_failed MoreSamples.iso0).
Proof. reflexivity. Qed.

Example agent_execute_without_query :
  ToolServer.agent_execute ToString (JObj [("query", JStr EmptyString)])
    MoreSamples.run_ok MoreSamples.iso0 Samples.demo_tracker
  = (Samples.demo_tracker,
     {| ToolServer.ex_status := 400;
        ToolServer.ex_output := None;
        ToolServer.ex_error := Some "Missing 'query' in request body.";
        ToolServer.ex_steps := None |}).
Proof. reflexivity. Qed.

Example initialize_can_undo_itself :
  let w1 := (Client.initialize
               (fetch_from ToString Samples.axios_up Server.construct MoreSamples.iso0)
               Samples.w0).2 in
  let silent := fun c : Client.fetch_call =>
    Client.Fetched
      {| Client.r_status := 200; Client.r_statusText := "OK";
         Client.r_json := Client.Parsed
           {| rs_id := IdNum 1; result := None; error := None |} |} in
  is_Some (Client.capabilities (Client.this w1))
  ∧ Client.capabilities (Client.this (Client.initialize silent w1).2) = None.
Proof. split; [by eexists | reflexivity]. Qed.
